(** * Eliza Town static asset server (server.py)

    A shallow embedding of [server.py] and of the parts of the Python
    standard library it configures: [int()] on the [PORT] environment
    value, [socketserver.TCPServer] start-up, [print] on [sys.stdout], and
    the request handling of [http.server.SimpleHTTPRequestHandler], from
    the bytes of a request to the bytes of the response, with the two
    members the subclass [CORSHandler] overrides ([extensions_map],
    [end_headers]).

    The library is the one of CPython 3.11.2 ([Lib/http/server.py],
    [Lib/http/client.py], [Lib/socketserver.py], [Lib/shutil.py],
    [Lib/posixpath.py], [Lib/genericpath.py], [Objects/longobject.c],
    [Modules/_io/textio.c]); what differs between platforms or is a
    library of its own (the stock MIME table, [mimetypes], dates, the
    [email] parser, URL splitting and decoding, the file system) is a
    parameter of the model.

    A Python [str] or [bytes] value is a [string]: a sequence of code
    points (resp. bytes) below 256; the text of a request is decoded as
    ISO 8859-1, so that it is such a sequence.  A path name with other
    code points is known to the model through [translate_path] and
    [os_fsencode] only.  Dictionaries are [gmap]s.  What the handler logs
    on standard error is not part of the model. *)

From Stdlib Require Import ZArith Lia Ascii DecimalString DecimalPos.
From stdpp Require Import base option list strings gmap.

Local Open Scope Z_scope.

(** ** Characters and strings *)

Definition ord (c : ascii) : Z := Z.of_N (N_of_ascii c).

Definition in_range (lo hi : Z) (c : ascii) : bool :=
  (lo <=? ord c) && (ord c <=? hi).

(** [Py_ISSPACE] of pyctype.h: tab, LF, VT, FF, CR and space. *)
Definition Py_ISSPACE (c : ascii) : bool :=
  in_range 9 13 c || (ord c =? 32).

(** [Py_UNICODE_ISSPACE] on the code points below 256. *)
Definition Py_UNICODE_ISSPACE (c : ascii) : bool :=
  in_range 9 13 c || in_range 28 32 c || (ord c =? 133) || (ord c =? 160).

(** [Py_UNICODE_TODECIMAL] on the code points below 256: only the ASCII
    digits are decimal digits there. *)
Definition Py_UNICODE_TODECIMAL (c : ascii) : option Z :=
  if in_range 48 57 c then Some (ord c - 48) else None.

(** [str.lower()] on the code points below 256: A-Z, and the Latin-1
    capitals U+00C0..U+00DE except the multiplication sign U+00D7. *)
Definition lower_char (c : ascii) : ascii :=
  if in_range 65 90 c || (in_range 192 222 c && negb (ord c =? 215))
  then ascii_of_N (N_of_ascii c + 32) else c.

Fixpoint lower (s : string) : string :=
  match s with
  | EmptyString => EmptyString
  | String c s' => String (lower_char c) (lower s')
  end.

Fixpoint string_forallb (p : ascii -> bool) (s : string) : bool :=
  match s with
  | EmptyString => true
  | String c s' => p c && string_forallb p s'
  end.

(** [s.endswith("/")] *)
Fixpoint endswith_slash (s : string) : bool :=
  match s with
  | EmptyString => false
  | String c EmptyString => ord c =? 47
  | String _ s' => endswith_slash s'
  end.

(** [str(n)] and [f"{n}"] for an [int]: decimal digits, [-] for negatives. *)
Definition str (n : Z) : string := NilZero.string_of_int (Z.to_int n).

Definition CR : string := String "013"%char EmptyString.
Definition LF : string := String "010"%char EmptyString.
Definition CRLF : string := CR +:+ LF.

(** [b"".join(parts)] *)
Definition join (parts : list string) : string :=
  foldr String.append EmptyString parts.

(** ** Exceptions *)

Inductive exn : Set :=
| ValueError
| OverflowError
| OSError.

Inductive result (A : Type) : Type :=
| Ok (a : A)
| Raise (e : exn).
Arguments Ok {A} a.
Arguments Raise {A} e.

(** ** [int(str)] in base 10

    [PyLong_FromUnicodeObject]: the text goes through
    [_PyUnicode_TransformDecimalAndSpaceToASCII], then
    [PyLong_FromString] skips white space, reads a sign, refuses a leading
    underscore, scans digits separated by single underscores, applies the
    interpreter's limit on the number of digits, skips white space and
    requires the end of the text. *)

Definition is_ascii (s : string) : bool :=
  string_forallb (fun c => ord c <? 128) s.

(** The loop of the transformation on a text that is not pure ASCII: code
    points below 127 are kept, spaces become [' '], decimal digits their
    ASCII digit, and the first other code point becomes ['?'] and ends the
    output. *)
Fixpoint transform_chars (s : string) : string :=
  match s with
  | EmptyString => EmptyString
  | String c s' =>
      if ord c <? 127 then String c (transform_chars s')
      else if Py_UNICODE_ISSPACE c then String " "%char (transform_chars s')
      else match Py_UNICODE_TODECIMAL c with
           | Some d => String (ascii_of_N (Z.to_N (48 + d))) (transform_chars s')
           | None => String "?"%char EmptyString
           end
  end.

Definition transform_decimal_and_space (s : string) : string :=
  if is_ascii s then s else transform_chars s.

Fixpoint skip_space (s : string) : string :=
  match s with
  | String c s' => if Py_ISSPACE c then skip_space s' else s
  | EmptyString => EmptyString
  end.

Definition is_underscore (c : ascii) : bool := ord c =? 95.

(** The scan loop of [long_from_non_binary_base]: [prev] is the previous
    character (NUL at the start), [digits] the number of digits seen and
    [acc] their value.  [None] is the error exit on two underscores in a
    row; otherwise the loop stops at the first character that is neither a
    digit nor an underscore and returns what is left. *)
Fixpoint scan_digits (s : string) (prev : ascii) (digits : nat) (acc : Z)
  : option (ascii * nat * Z * string) :=
  match s with
  | EmptyString => Some (prev, digits, acc, EmptyString)
  | String c s' =>
      if is_underscore c then
        if is_underscore prev then None
        else scan_digits s' c digits acc
      else match Py_UNICODE_TODECIMAL c with
           | Some d => scan_digits s' c (S digits) (10 * acc + d)
           | None => Some (prev, digits, acc, s)
           end
  end.

(** [_PY_LONG_MAX_STR_DIGITS_THRESHOLD] *)
Definition MAX_STR_DIGITS_THRESHOLD : nat := 640.

(** The check against [sys.get_int_max_str_digits()]; 0 switches the limit
    off. *)
Definition exceeds_limit (max_str_digits digits : nat) : bool :=
  (MAX_STR_DIGITS_THRESHOLD <? digits)%nat
  && (0 <? max_str_digits)%nat && (max_str_digits <? digits)%nat.

Definition read_sign (s : string) : Z * string :=
  match s with
  | String c s' =>
      if ord c =? 43 then (1, s')
      else if ord c =? 45 then (-1, s')
      else (1, s)
  | EmptyString => (1, s)
  end.

Definition starts_with_underscore (s : string) : bool :=
  match s with
  | String c _ => is_underscore c
  | EmptyString => false
  end.

Definition PyLong_FromString (max_str_digits : nat) (s : string) : result Z :=
  let s1 := skip_space s in
  let '(sign, s2) := read_sign s1 in
  if starts_with_underscore s2 then Raise ValueError
  else match scan_digits s2 "000"%char 0%nat 0 with
       | None => Raise ValueError
       | Some (prev, digits, acc, rest) =>
           if is_underscore prev then Raise ValueError
           else if exceeds_limit max_str_digits digits then Raise ValueError
           else if (digits =? 0)%nat then Raise ValueError
           else match skip_space rest with
                | EmptyString => Ok (sign * acc)
                | String _ _ => Raise ValueError
                end
       end.

Definition int_of_str (max_str_digits : nat) (s : string) : result Z :=
  PyLong_FromString max_str_digits (transform_decimal_and_space s).

(** ** Start-up: [PORT], the server socket and the banner *)

(** What [os.environ.get("PORT", 10000)] evaluates to: the text of the
    variable, or the integer default. *)
Inductive value : Type :=
| VStr (s : string)
| VInt (n : Z).

(** [os.environ.get(key, default)] *)
Definition environ_get (environ : gmap string string) (key : string)
    (default : value) : value :=
  match environ !! key with
  | Some s => VStr s
  | None => default
  end.

(** [int(x)] *)
Definition int (max_str_digits : nat) (x : value) : result Z :=
  match x with
  | VInt n => Ok n
  | VStr s => int_of_str max_str_digits s
  end.

(** [PORT = int(os.environ.get("PORT", 10000))] *)
Definition PORT (max_str_digits : nat) (environ : gmap string string)
  : result Z :=
  int max_str_digits (environ_get environ "PORT" (VInt 10000)).

(** The steps of the run, in order: the calls to the operating system
    ([socket], [bind], [getsockname], [listen], [close], and [write] on
    file descriptor 1, which is [Stdout]), the text that [print] leaves in
    the buffer of [sys.stdout] without a [write], and the entry into the
    request loop.  A call that fails is the last call before the socket
    is closed and the exception ends the run. *)
Inductive event : Type :=
| Socket
| Bind (host : string) (port : Z)
| GetSockName
| Listen
| Close
| Stdout (text : string)
| Buffered (text : string)
| ServeForever.

(** How the interpreter opened [sys.stdout] ([create_stdio]): [None] when
    file descriptor 1 is not open; write-through and without buffer under
    [-u] or [PYTHONUNBUFFERED]; line buffered on a terminal; block
    buffered otherwise (a pipe, a file). *)
Inductive stdio : Type :=
| NoStdout
| Unbuffered
| LineBuffered
| BlockBuffered.

(** The interpreter and operating system under the program:
    [sys.get_int_max_str_digits()], whether the system creates a socket,
    grants [bind] on a port, answers [getsockname], accepts [listen] and
    accepts a [write] on standard output, and how [sys.stdout] was
    opened. *)
Record system : Type := {
  max_str_digits : nat;
  os_socket : bool;
  os_bind : Z -> bool;
  os_getsockname : bool;
  os_listen : bool;
  os_write : bool;
  stdout : stdio;
}.

(** [TCPServer.server_bind()]: [allow_reuse_address] and
    [allow_reuse_port] are false, so the method is [socket.bind] and
    [socket.getsockname].  [socket.bind] raises [OverflowError] for a port
    outside 0..65535 before it reaches the system, and [OSError] when the
    system refuses. *)
Definition server_bind (sys : system) (host : string) (port : Z)
  : list event * option exn :=
  if (0 <=? port) && (port <=? 65535) then
    if os_bind sys port then
      if os_getsockname sys then ([Bind host port; GetSockName], None)
      else ([Bind host port; GetSockName], Some OSError)
    else ([Bind host port], Some OSError)
  else ([], Some OverflowError).

(** [TCPServer.server_activate()]: [socket.listen] *)
Definition server_activate (sys : system) : list event * option exn :=
  if os_listen sys then ([Listen], None) else ([Listen], Some OSError).

(** [socketserver.TCPServer((host, port), handler)]: the constructor
    creates the socket, then binds and activates it; when one of the two
    raises, it closes the socket and raises again. *)
Definition TCPServer (sys : system) (host : string) (port : Z)
  : list event * option exn :=
  if os_socket sys then
    match server_bind sys host port with
    | (bound, Some e) => (Socket :: bound ++ [Close], Some e)
    | (bound, None) =>
        match server_activate sys with
        | (active, Some e) => (Socket :: bound ++ active ++ [Close], Some e)
        | (active, None) => (Socket :: bound ++ active, None)
        end
    end
  else ([Socket], Some OSError).

(** One [write] of [sys.stdout] on file descriptor 1. *)
Definition stdout_write (sys : system) (text : string)
  : list event * option exn :=
  if os_write sys then ([Stdout text], None) else ([Stdout text], Some OSError).

(** [print(text)]: the text and the line end are written to [sys.stdout]
    one after the other.  Without buffer each is a [write] of its own; a
    line-buffered stream writes both in one [write] when it sees the line
    end; a block-buffered stream keeps them in its buffer, which is
    written out when it is full or when the interpreter exits in the
    regular way; and [print] does nothing when [sys.stdout] is [None].
    (For a text shorter than the buffer of 8192 bytes, as the one line of
    this program is.) *)
Definition print (sys : system) (text : string) : list event * option exn :=
  match stdout sys with
  | NoStdout => ([], None)
  | Unbuffered =>
      match stdout_write sys text with
      | (first, Some e) => (first, Some e)
      | (first, None) =>
          match stdout_write sys LF with
          | (second, e) => (first ++ second, e)
          end
      end
  | LineBuffered => stdout_write sys (text +:+ LF)
  | BlockBuffered => ([Buffered (text +:+ LF)], None)
  end.

Definition banner (port : Z) : string :=
  "Eliza Town server running at http://localhost:" +:+ str port.

(** The module body: the steps of the run and the exception that ends it,
    if any.  [serve] is the [with] statement, entered with the value of
    [PORT]: an exception in its body closes the socket on the way out;
    [serve_forever] is the last step of a run that started. *)
Definition serve (sys : system) (port : Z) : list event * option exn :=
  match TCPServer sys "" port with
  | (started, Some e) => (started, Some e)
  | (started, None) =>
      match print sys (banner port) with
      | (printed, Some e) => (started ++ printed ++ [Close], Some e)
      | (printed, None) => (started ++ printed ++ [ServeForever], None)
      end
  end.

Definition main (sys : system) (environ : gmap string string)
  : list event * option exn :=
  match PORT (max_str_digits sys) environ with
  | Raise e => ([], Some e)
  | Ok port => serve sys port
  end.

(** ** Paths and the MIME type table *)

Fixpoint take_chars (n : nat) (s : string) : string :=
  match n, s with
  | S n', String c s' => String c (take_chars n' s')
  | _, _ => EmptyString
  end.

Fixpoint drop_chars (n : nat) (s : string) : string :=
  match n, s with
  | S n', String _ s' => drop_chars n' s'
  | _, _ => s
  end.

(** [p.rfind(c)]: the index of the last [c] in [p], or -1. *)
Fixpoint rfind_from (c : ascii) (p : string) (i best : Z) : Z :=
  match p with
  | EmptyString => best
  | String x p' => rfind_from c p' (i + 1) (if Ascii.eqb x c then i else best)
  end.

Definition rfind (c : ascii) (p : string) : Z := rfind_from c p 0 (-1).

(** [posixpath.splitext(p)]: the extension starts at the last dot of the
    last path component, unless that component has only dots before it. *)
Definition splitext (p : string) : string * string :=
  let sepIndex := rfind "/"%char p in
  let dotIndex := rfind "."%char p in
  if (sepIndex <? dotIndex)
     && negb (string_forallb (Ascii.eqb "."%char)
                (take_chars (Z.to_nat (dotIndex - (sepIndex + 1)))
                   (drop_chars (Z.to_nat (sepIndex + 1)) p)))
  then (take_chars (Z.to_nat dotIndex) p, drop_chars (Z.to_nat dotIndex) p)
  else (p, EmptyString).

(** [posixpath.join(a, b)] for a relative [b]. *)
Definition path_join (a b : string) : string :=
  if String.eqb a "" || endswith_slash a then a +:+ b else a +:+ "/" +:+ b.

(** [c] does not occur in [s]. *)
Definition absent (c : ascii) (s : string) : bool :=
  string_forallb (fun x => negb (Ascii.eqb x c)) s.

(** ** The text of a request *)

(** [rfile.readline(limit)]: the bytes up to and including the first line
    feed, [limit] bytes at most, and what is left to read.  The input is
    what the client sends until it stops; at its end [readline] returns
    what is there. *)
Fixpoint readline (limit : Z) (rfile : string) : string * string :=
  match rfile with
  | EmptyString => (EmptyString, EmptyString)
  | String c rest =>
      if limit <=? 0 then (EmptyString, rfile)
      else if ord c =? 10 then (String c EmptyString, rest)
      else let '(line, rest') := readline (limit - 1) rest in
           (String c line, rest')
  end.

(** [len(s)] *)
Definition len (s : string) : Z := Z.of_nat (String.length s).

(** [s.rstrip('\r\n')] *)
Fixpoint rstrip (s : string) : string :=
  match s with
  | EmptyString => EmptyString
  | String c s' =>
      match rstrip s' with
      | EmptyString =>
          if (ord c =? 13) || (ord c =? 10) then EmptyString
          else String c EmptyString
      | rest => String c rest
      end
  end.

(** [s.lstrip('/')] *)
Fixpoint lstrip (s : string) : string :=
  match s with
  | String c s' => if ord c =? 47 then lstrip s' else s
  | EmptyString => EmptyString
  end.

(** [s.split()]: the words of [s] between runs of white space; [word]
    holds the characters of the word that is being read. *)
Fixpoint split_words (s word : string) : list string :=
  match s with
  | EmptyString => if String.eqb word "" then [] else [word]
  | String c s' =>
      if Py_UNICODE_ISSPACE c then
        if String.eqb word "" then split_words s' ""
        else word :: split_words s' ""
      else split_words s' (word +:+ String c "")
  end.

Definition str_split (s : string) : list string := split_words s "".

(** [s.split(sep)] for a separator of one character: the pieces between
    its occurrences; [piece] holds the characters of the piece that is
    being read. *)
Fixpoint split_pieces (sep : ascii) (s piece : string) : list string :=
  match s with
  | EmptyString => [piece]
  | String c s' =>
      if Ascii.eqb c sep then piece :: split_pieces sep s' ""
      else split_pieces sep s' (piece +:+ String c "")
  end.

Definition split_on (sep : ascii) (s : string) : list string :=
  split_pieces sep s "".

(** [version.split('/', 1)[1]] for a [version] that starts with [HTTP/] *)
Definition base_version_number (version : string) : string :=
  drop_chars 5 version.

(** The [try] block of [parse_request] that reads the version: the two
    numbers of [HTTP/<major>.<minor>], read by [int()]; [None] when the
    block raises [ValueError]. *)
Definition version_number (max_str_digits : nat) (version : string)
  : option (Z * Z) :=
  if String.prefix "HTTP/" version then
    match split_on "." (base_version_number version) with
    | [major; minor] =>
        match int_of_str max_str_digits major,
              int_of_str max_str_digits minor with
        | Ok a, Ok b => Some (a, b)
        | _, _ => None
        end
    | _ => None
    end
  else None.

(** [a >= b] on pairs of integers *)
Definition tuple_ge (a b : Z * Z) : bool :=
  (b.1 <? a.1) || ((a.1 =? b.1) && (b.2 <=? a.2)).

(** [http.client._MAXLINE] and [http.client._MAXHEADERS] *)
Definition _MAXLINE : Z := 65536.
Definition _MAXHEADERS : nat := 100.

(** The two exceptions of [http.client.parse_headers] that
    [parse_request] catches. *)
Inductive header_error : Set :=
| LineTooLong
| TooManyHeaders.

(** The loop of [http.client._read_headers]: [allowed] is [_MAXHEADERS]
    less the number of lines read so far, so that the line read at
    [allowed = 0] is one too many. *)
Fixpoint read_header_lines (allowed : nat) (fp : string)
    (headers : list string) : header_error + list string :=
  let '(line, fp) := readline (_MAXLINE + 1) fp in
  if _MAXLINE <? len line then inl LineTooLong
  else
    match allowed with
    | O => inl TooManyHeaders
    | S allowed' =>
        if String.eqb line CRLF || String.eqb line LF || String.eqb line ""
        then inr (headers ++ [line])
        else read_header_lines allowed' fp (headers ++ [line])
    end.

Definition _read_headers (fp : string) : header_error + list string :=
  read_header_lines _MAXHEADERS fp [].

(** [self.headers.get(name)]: header names compare without case. *)
Definition header_get (name : string) (hs : list (string * string))
  : option string :=
  snd <$> List.find (fun kv => String.eqb (lower (fst kv)) (lower name)) hs.


(** An entry of the file system: a regular file with its bytes, whether
    [open(path, 'rb')] is permitted and its modification time in whole
    seconds; or a directory with the result of [os.listdir] ([None] when
    it raises [OSError]). *)
Inductive entry : Type :=
| File (contents : string) (readable : bool) (st_mtime : Z)
| Dir (listdir : option (list string)).

(** What a path name resolves to; [None] when nothing is there. *)
Definition filesystem : Type := string -> option entry.

(** The parts of [urllib.parse.urlsplit]: scheme, netloc, path, query and
    fragment. *)
Definition url_parts : Type := string * string * string * string * string.

(** The library and interpreter under the handler: the members of
    [http.server], [mimetypes], [urllib], [email] and [shutil] that the
    request handling calls and that do not depend on the subclass. *)
Record platform : Type := {
  (** [http.server.SimpleHTTPRequestHandler.extensions_map] *)
  base_extensions_map : gmap string string;
  (** the first component of [mimetypes.guess_type(path)] *)
  mimetypes_guess_type : string -> option string;
  (** [BaseHTTPRequestHandler.responses]: short and long message *)
  responses : Z -> option (string * string);
  (** [self.version_string()] *)
  version_string : string;
  (** [self.date_time_string(timestamp)]; [None] is the current time *)
  date_time_string : option Z -> string;
  (** [sys.get_int_max_str_digits()] *)
  int_max_str_digits : nat;
  (** the header fields that [email.parser] reads from the text of the
      header lines, as name and value, in their order *)
  message_from_string : string -> list (string * string);
  (** [self.translate_path(path)] under the served directory, which is the
      working directory when the request arrives *)
  translate_path : string -> string;
  (** whether the file system encoding can encode a path name; it cannot
      when [unquote] left a lone surrogate in it *)
  os_fsencode : string -> bool;
  (** [urllib.parse.urlsplit(url)]; [None] when it raises [ValueError] *)
  urlsplit : string -> option url_parts;
  (** [urllib.parse.urlunsplit(parts)] *)
  urlunsplit : url_parts -> string;
  (** the time of an [If-Modified-Since] value in whole seconds, when
      [email.utils.parsedate_to_datetime] accepts the value and finds no
      zone or the zone of offset zero in it; [None] otherwise *)
  if_modified_since : string -> option Z;
  (** [error_message_format % {code, message, explain}], encoded *)
  error_message : Z -> string -> string -> string;
  (** the page [list_directory] builds from the request path, the
      directory and its names, encoded; [None] when the encoding raises
      [UnicodeEncodeError] *)
  directory_listing :
    filesystem -> string -> string -> list string -> option string;
  (** [sys.getfilesystemencoding()] *)
  getfilesystemencoding : string;
  (** [repr(s)] of a [str] *)
  repr : string -> string;
  (** [shutil.COPY_BUFSIZE] *)
  COPY_BUFSIZE : positive;
}.

(** The state of a request handler: the command, path, version and
    headers of the request ([None], the empty text and the empty list
    while the attribute does not exist), the buffer of header lines (empty
    while the attribute does not exist), what was written to the socket
    (one element per [wfile.write]) and the connection flag. *)
Record handler : Type := {
  command : option string;
  path : string;
  request_version : string;
  headers : list (string * string);
  _headers_buffer : list string;
  wfile : list string;
  close_connection : bool;
}.

Definition with_command (h : handler) (c : option string) : handler :=
  {| command := c; path := path h;
     request_version := request_version h; headers := headers h;
     _headers_buffer := _headers_buffer h; wfile := wfile h;
     close_connection := close_connection h |}.

Definition with_path (h : handler) (p : string) : handler :=
  {| command := command h; path := p;
     request_version := request_version h; headers := headers h;
     _headers_buffer := _headers_buffer h; wfile := wfile h;
     close_connection := close_connection h |}.

Definition with_version (h : handler) (version : string) : handler :=
  {| command := command h; path := path h;
     request_version := version; headers := headers h;
     _headers_buffer := _headers_buffer h; wfile := wfile h;
     close_connection := close_connection h |}.

Definition with_headers (h : handler) (hs : list (string * string))
  : handler :=
  {| command := command h; path := path h;
     request_version := request_version h; headers := hs;
     _headers_buffer := _headers_buffer h; wfile := wfile h;
     close_connection := close_connection h |}.

Definition with_buffer (h : handler) (buf : list string) : handler :=
  {| command := command h; path := path h;
     request_version := request_version h; headers := headers h;
     _headers_buffer := buf; wfile := wfile h;
     close_connection := close_connection h |}.

Definition with_close (h : handler) (b : bool) : handler :=
  {| command := command h; path := path h;
     request_version := request_version h; headers := headers h;
     _headers_buffer := _headers_buffer h; wfile := wfile h;
     close_connection := b |}.

(** [self.wfile.write(data)] *)
Definition write (h : handler) (data : string) : handler :=
  {| command := command h; path := path h;
     request_version := request_version h; headers := headers h;
     _headers_buffer := _headers_buffer h; wfile := wfile h ++ [data];
     close_connection := close_connection h |}.

(** The handler of a new connection, as [handle()] calls
    [handle_one_request] on it: nothing is read or written yet and the
    connection flag is set. *)
Definition setup : handler :=
  {| command := None; path := ""; request_version := ""; headers := [];
     _headers_buffer := []; wfile := []; close_connection := true |}.

(** The members a subclass of [SimpleHTTPRequestHandler] can override and
    that this program does override. *)
Record handler_class : Type := {
  extensions_map : gmap string string;
  end_headers : handler -> handler;
}.

(** [BaseHTTPRequestHandler.protocol_version] and
    [default_request_version] *)
Definition protocol_version : string := "HTTP/1.0".
Definition default_request_version : string := "HTTP/0.9".

(** [DEFAULT_ERROR_CONTENT_TYPE] *)
Definition error_content_type : string := "text/html;charset=utf-8".

Definition is_http09 (h : handler) : bool :=
  String.eqb (request_version h) "HTTP/0.9".

(** ["%s %d %s\r\n" % (self.protocol_version, code, message)] *)
Definition status_line (code : Z) (message : string) : string :=
  protocol_version +:+ " " +:+ str code +:+ " " +:+ message +:+ CRLF.

(** ["%s: %s\r\n" % (keyword, value)] *)
Definition header_line (keyword value : string) : string :=
  keyword +:+ ": " +:+ value +:+ CRLF.

(** ** [BaseHTTPRequestHandler]: building a response *)

Section Library.

Variable P : platform.
Variable fs : filesystem.

(** [self.responses[code][0]] when the table has the code, [''] when not *)
Definition short_message (code : Z) : string :=
  match responses P code with
  | Some (short, _) => short
  | None => ""
  end.

(** [send_response_only(code, message)] *)
Definition send_response_only (h : handler) (code : Z)
    (message : option string) : handler :=
  if is_http09 h then h
  else
    let message := default (short_message code) message in
    with_buffer h (_headers_buffer h ++ [status_line code message]).

(** [send_header(keyword, value)] *)
Definition send_header (h : handler) (keyword value : string) : handler :=
  let h1 :=
    if is_http09 h then h
    else with_buffer h (_headers_buffer h ++ [header_line keyword value]) in
  if String.eqb (lower keyword) "connection" then
    if String.eqb (lower value) "close" then with_close h1 true
    else if String.eqb (lower value) "keep-alive" then with_close h1 false
    else h1
  else h1.

(** [flush_headers()]; it is only called by [end_headers], after a line
    was added to the buffer. *)
Definition flush_headers (h : handler) : handler :=
  with_buffer (write h (join (_headers_buffer h))) [].

(** [BaseHTTPRequestHandler.end_headers()] *)
Definition base_end_headers (h : handler) : handler :=
  if is_http09 h then h
  else flush_headers (with_buffer h (_headers_buffer h ++ [CRLF])).

(** [send_response(code, message)]; the request is also logged to
    standard error, which is not part of the state. *)
Definition send_response (h : handler) (code : Z) (message : option string)
  : handler :=
  let h := send_response_only h code message in
  let h := send_header h "Server" (version_string P) in
  send_header h "Date" (date_time_string P None).

(** The classes.  [SimpleHTTPRequestHandler] is the library's; [CORSHandler]
    is the program's subclass: the table of the base class with three
    entries set after it, and [end_headers] sending two headers before it
    calls the method of the base class. *)
Definition SimpleHTTPRequestHandler : handler_class :=
  {| extensions_map := base_extensions_map P;
     end_headers := base_end_headers |}.

Definition CORSHandler : handler_class :=
  {| extensions_map :=
       <[".bin" := "application/octet-stream"]>
         (<[".glb" := "model/gltf-binary"]>
            (<[".gltf" := "model/gltf+json"]>
               (extensions_map SimpleHTTPRequestHandler)));
     end_headers := fun h =>
       let h := send_header h "Access-Control-Allow-Origin" "*" in
       let h := send_header h "Cache-Control" "no-cache" in
       end_headers SimpleHTTPRequestHandler h |}.

(** The class of [self] in the methods below. *)
Variable cls : handler_class.

(** [send_error(code, message, explain)] *)
Definition send_error (h : handler) (code : Z)
    (message explain : option string) : handler :=
  let '(shortmsg, longmsg) :=
    match responses P code with
    | Some sl => sl
    | None => ("???", "???")
    end in
  let message := default shortmsg message in
  let explain := default longmsg explain in
  let h := send_response h code (Some message) in
  let h := send_header h "Connection" "close" in
  if (200 <=? code)
     && negb ((code =? 204) || (code =? 205) || (code =? 304))
  then
    let body := error_message P code message explain in
    let h := send_header h "Content-Type" error_content_type in
    let h := send_header h "Content-Length"
               (str (Z.of_nat (String.length body))) in
    let h := end_headers cls h in
    if negb (bool_decide (command h = Some "HEAD"))
       && negb (String.eqb body "")
    then write h body else h
  else end_headers cls h.

(** ** [BaseHTTPRequestHandler]: reading a request *)

(** [handle_expect_100()] *)
Definition handle_expect_100 (h : handler) : handler :=
  end_headers cls (send_response_only h 100 None).

(** [parse_request()]: the handler with the request in it and [True], or
    the handler after the error response and [False].  [rfile] is what
    follows the request line. *)
Definition parse_request (h : handler) (raw_requestline rfile : string)
  : handler * bool :=
  let h := with_command h None in
  let h := with_version h default_request_version in
  let h := with_close h true in
  let requestline := rstrip raw_requestline in
  let words := str_split requestline in
  if (length words =? 0)%nat then (h, false)
  else
    (* the block under [if len(words) >= 3]: [inl] after an error
       response, [inr] to go on *)
    let checked : handler + handler :=
      if (3 <=? length words)%nat then
        let version := List.last words "" in
        match version_number (int_max_str_digits P) version with
        | None =>
            inl (send_error h 400
                   (Some ("Bad request version (" +:+ repr P version +:+ ")"))
                   None)
        | Some number =>
            let h :=
              if tuple_ge number (1, 1)
                 && String.leb "HTTP/1.1" protocol_version
              then with_close h false else h in
            if tuple_ge number (2, 0) then
              inl (send_error h 505
                     (Some ("Invalid HTTP version ("
                            +:+ base_version_number version +:+ ")"))
                     None)
            else inr (with_version h version)
        end
      else inr h in
    match checked with
    | inl h => (h, false)
    | inr h =>
        if negb ((2 <=? length words)%nat && (length words <=? 3)%nat) then
          (send_error h 400
             (Some ("Bad request syntax (" +:+ repr P requestline +:+ ")"))
             None, false)
        else
          let word0 := nth 0 words "" in
          let word1 := nth 1 words "" in
          let h := if (length words =? 2)%nat then with_close h true else h in
          if (length words =? 2)%nat && negb (String.eqb word0 "GET") then
            (send_error h 400
               (Some ("Bad HTTP/0.9 request type (" +:+ repr P word0 +:+ ")"))
               None, false)
          else
            let h := with_path (with_command h (Some word0)) word1 in
            let h :=
              if String.prefix "//" (path h)
              then with_path h ("/" +:+ lstrip (path h)) else h in
            match _read_headers rfile with
            | inl LineTooLong =>
                (send_error h 431 (Some "Line too long")
                   (Some "got more than 65536 bytes when reading header line"),
                 false)
            | inl TooManyHeaders =>
                (send_error h 431 (Some "Too many headers")
                   (Some "got more than 100 headers"), false)
            | inr lines =>
                let h := with_headers h (message_from_string P (join lines)) in
                let conntype :=
                  default "" (header_get "Connection" (headers h)) in
                let h :=
                  if String.eqb (lower conntype) "close" then with_close h true
                  else if String.eqb (lower conntype) "keep-alive"
                          && String.leb "HTTP/1.1" protocol_version
                  then with_close h false
                  else h in
                let expect := default "" (header_get "Expect" (headers h)) in
                if String.eqb (lower expect) "100-continue"
                   && String.leb "HTTP/1.1" protocol_version
                   && String.leb "HTTP/1.1" (request_version h)
                then (handle_expect_100 h, true)
                else (h, true)
            end
    end.


(** ** [SimpleHTTPRequestHandler]: serving files *)

(** [guess_type(path)] *)
Definition guess_type (fpath : string) : string :=
  let '(_, ext) := splitext fpath in
  match extensions_map cls !! ext with
  | Some t => t
  | None =>
      match extensions_map cls !! lower ext with
      | Some t => t
      | None =>
          match mimetypes_guess_type P fpath with
          | Some guess =>
              if String.eqb guess "" then "application/octet-stream"
              else guess
          | None => "application/octet-stream"
          end
      end
  end.

(** [os.stat(path)]: what is at the path, or [ValueError] for a path that
    cannot be a file name: one that holds a NUL character or that the
    file system encoding cannot encode ([UnicodeEncodeError], which is a
    [ValueError]). *)
Definition os_stat (fpath : string) : result (option entry) :=
  if absent "000" fpath && os_fsencode P fpath then Ok (fs fpath)
  else Raise ValueError.

(** [os.path.isdir(path)] and [os.path.isfile(path)]: false when
    [os.stat] raises [OSError] or [ValueError]. *)
Definition isdir (fpath : string) : bool :=
  match os_stat fpath with Ok (Some (Dir _)) => true | _ => false end.

Definition isfile (fpath : string) : bool :=
  match os_stat fpath with Ok (Some (File _ _ _)) => true | _ => false end.

(** [open(path, 'rb')] with [os.fstat] of the open file: the bytes and the
    modification time; [OSError] when nothing is there or it may not be
    opened, [ValueError] when the path cannot be a file name. *)
Definition open_rb (fpath : string) : result (string * Z) :=
  match os_stat fpath with
  | Raise e => Raise e
  | Ok (Some (File contents true mtime)) => Ok (contents, mtime)
  | Ok _ => Raise OSError
  end.

(** [os.listdir(path)] *)
Definition listdir (fpath : string) : result (list string) :=
  match os_stat fpath with
  | Raise e => Raise e
  | Ok (Some (Dir (Some names))) => Ok names
  | Ok _ => Raise OSError
  end.

(** The test of [send_head] for answering 304: an [If-Modified-Since]
    header without [If-None-Match], that parses to a time in UTC at or
    after the modification time of the file. *)
Definition not_modified (hs : list (string * string)) (mtime : Z) : bool :=
  match header_get "If-Modified-Since" hs, header_get "If-None-Match" hs with
  | Some v, None =>
      match if_modified_since P v with
      | Some ims => mtime <=? ims
      | None => false
      end
  | _, _ => false
  end.

(** [list_directory(path)]: the handler after the headers, and the file
    object to copy ([None] when there is nothing further to send) or the
    exception that left the method. *)
Definition list_directory (h : handler) (fpath : string)
  : handler * result (option string) :=
  match listdir fpath with
  | Raise OSError =>
      (send_error h 404 (Some "No permission to list directory") None,
       Ok None)
  | Raise e => (h, Raise e)
  | Ok names =>
      match directory_listing P fs (path h) fpath names with
      | None => (h, Raise ValueError)
      | Some encoded =>
          let h := send_response h 200 None in
          let h := send_header h "Content-type"
                     ("text/html; charset=" +:+ getfilesystemencoding P) in
          let h := send_header h "Content-Length" (str (Z.of_nat (String.length encoded))) in
          (end_headers cls h, Ok (Some encoded))
      end
  end.

(** The part of [send_head] after the directory case: [fpath], the local
    variable [path] of the method, names what is to be served. *)
Definition send_file (h : handler) (fpath : string)
  : handler * result (option string) :=
  let ctype := guess_type fpath in
  if endswith_slash fpath then
    (send_error h 404 (Some "File not found") None, Ok None)
  else
    match open_rb fpath with
    | Raise OSError => (send_error h 404 (Some "File not found") None, Ok None)
    | Raise e => (h, Raise e)
    | Ok (contents, mtime) =>
        if not_modified (headers h) mtime then
          (end_headers cls (send_response h 304 None), Ok None)
        else
          let h := send_response h 200 None in
          let h := send_header h "Content-type" ctype in
          let h := send_header h "Content-Length" (str (Z.of_nat (String.length contents))) in
          let h := send_header h "Last-Modified"
                     (date_time_string P (Some mtime)) in
          (end_headers cls h, Ok (Some contents))
    end.

(** [send_head()] *)
Definition send_head (h : handler) : handler * result (option string) :=
  let fpath := translate_path P (path h) in
  if isdir fpath then
    match urlsplit P (path h) with
    | None => (h, Raise ValueError)
    | Some (scheme, netloc, upath, query, fragment) =>
        if negb (endswith_slash upath) then
          let new_url :=
            urlunsplit P (scheme, netloc, upath +:+ "/", query, fragment) in
          let h := send_response h 301 None in
          let h := send_header h "Location" new_url in
          let h := send_header h "Content-Length" "0" in
          (end_headers cls h, Ok None)
        else if isfile (path_join fpath "index.html") then
          send_file h (path_join fpath "index.html")
        else if isfile (path_join fpath "index.htm") then
          send_file h (path_join fpath "index.htm")
        else list_directory h fpath
    end
  else send_file h fpath.

(** The loop of [shutil.copyfileobj]: read [length] bytes, stop on an
    empty read, write what was read. *)
Fixpoint copy_loop (fuel length : nat) (fsrc : string) (h : handler)
  : handler :=
  match fuel with
  | O => h
  | S fuel' =>
      let buf := take_chars length fsrc in
      if String.eqb buf "" then h
      else copy_loop fuel' length (drop_chars length fsrc) (write h buf)
  end.

(** [copyfile(source, outputfile)]; every turn of the loop but the last
    reads at least one byte, so one turn more than the length is enough.
    The client takes all that is written. *)
Definition copyfile (fsrc : string) (h : handler) : handler :=
  copy_loop (S (String.length fsrc)) (Pos.to_nat (COPY_BUFSIZE P)) fsrc h.

(** [do_GET()]: the handler, and the exception that left the method, if
    any. *)
Definition do_GET (h : handler) : handler * option exn :=
  match send_head h with
  | (h, Ok (Some f)) => (copyfile f h, None)
  | (h, Ok None) => (h, None)
  | (h, Raise e) => (h, Some e)
  end.

(** [do_HEAD()] *)
Definition do_HEAD (h : handler) : handler * option exn :=
  match send_head h with
  | (h, Ok _) => (h, None)
  | (h, Raise e) => (h, Some e)
  end.

(** The end of [handle_one_request], once [parse_request] has returned
    [True] and so set the command: the method [do_] + command when the
    class has one, 501 otherwise. *)
Definition call_method (h : handler) : handler * option exn :=
  let word := default "" (command h) in
  let mname := "do_" +:+ word in
  if String.eqb mname "do_GET" then do_GET h
  else if String.eqb mname "do_HEAD" then do_HEAD h
  else (send_error h 501
          (Some ("Unsupported method (" +:+ repr P word +:+ ")")) None,
        None).

(** [handle_one_request()] on the bytes [rfile] of the connection: the
    handler after the request, and the exception that left the method, if
    any.  No time limit is set on the socket, so no read times out. *)
Definition handle_one_request (h : handler) (rfile : string)
  : handler * option exn :=
  let '(raw_requestline, rfile) := readline 65537 rfile in
  if 65536 <? len raw_requestline then
    let h := with_command (with_version h "") (Some "") in
    (send_error h 414 None None, None)
  else if String.eqb raw_requestline "" then (with_close h true, None)
  else
    match parse_request h raw_requestline rfile with
    | (h, false) => (h, None)
    | (h, true) => call_method h
    end.

End Library.

(** ** Reading a response *)

Fixpoint until_space (s : string) : string :=
  match s with
  | EmptyString => EmptyString
  | String c s' => if Ascii.eqb c " " then EmptyString
                   else String c (until_space s')
  end.

Fixpoint after_space (s : string) : string :=
  match s with
  | EmptyString => EmptyString
  | String c s' => if Ascii.eqb c " " then s' else after_space s'
  end.

(** The status code of a response whose first write is a header block: the
    second word of the status line. *)
Definition status_code (response : list string) : option string :=
  match response with
  | [] => None
  | head :: _ => Some (until_space (after_space head))
  end.

(** The bytes after the header block. *)
Definition body (response : list string) : string := join (tail response).
(** ** A platform and a served directory to run the model on *)

(** The table of [SimpleHTTPRequestHandler] as the library ships it. *)
Definition stock_extensions_map : gmap string string :=
  <[".xz" := "application/x-xz"]>
    (<[".bz2" := "application/x-bzip2"]>
       (<[".Z" := "application/octet-stream"]>
          (<[".gz" := "application/gzip"]> ∅))).

Definition stock_responses (code : Z) : option (string * string) :=
  if code =? 200 then Some ("OK", "Request fulfilled, document follows")
  else if code =? 301 then
    Some ("Moved Permanently", "Object moved permanently -- see URI list")
  else if code =? 304 then
    Some ("Not Modified", "Document has not changed since given time")
  else if code =? 400 then
    Some ("Bad Request", "Bad request syntax or unsupported method")
  else if code =? 404 then Some ("Not Found", "Nothing matches the given URI")
  else if code =? 414 then Some ("Request-URI Too Long", "URI is too long")
  else if code =? 431 then
    Some ("Request Header Fields Too Large",
          "The server is unwilling to process the request because its header "
          +:+ "fields are too large")
  else if code =? 501 then
    Some ("Not Implemented", "Server does not support this operation")
  else if code =? 505 then
    Some ("HTTP Version Not Supported", "Cannot fulfill request")
  else None.

(** The text before the first [c] of [s] and the text after it. *)
Fixpoint partition_at (c : ascii) (s : string) : string * string :=
  match s with
  | EmptyString => (EmptyString, EmptyString)
  | String x s' =>
      if Ascii.eqb x c then (EmptyString, s')
      else let '(before, after) := partition_at c s' in (String x before, after)
  end.

(** Header fields of the plain form [Name: value], one per line. *)
Definition plain_field (line : string) : option (string * string) :=
  let line := rstrip line in
  if String.eqb line "" then None
  else let '(name, value) := partition_at ":" line in
       Some (name, skip_space value).

Definition plain_fields (text : string) : list (string * string) :=
  omap plain_field (split_on "010" text).

(** A platform whose [mimetypes] knows no type, with the served directory
    at [/srv], a copy buffer of four bytes, and URLs of a path and a
    query. *)
Definition example_platform : platform :=
  {| base_extensions_map := stock_extensions_map;
     mimetypes_guess_type := fun _ => None;
     responses := stock_responses;
     version_string := "SimpleHTTP/0.6 Python/3.11.2";
     date_time_string := fun t =>
       match t with
       | None => "Tue, 03 Nov 2026 11:08:56 GMT"
       | Some _ => "Mon, 02 Nov 2026 09:00:00 GMT"
       end;
     int_max_str_digits := 4300;
     message_from_string := plain_fields;
     translate_path := fun p => "/srv" +:+ (partition_at "?" p).1;
     os_fsencode := fun _ => true;
     urlsplit := fun url =>
       let '(upath, query) := partition_at "?" url in
       Some ("", "", upath, query, "");
     urlunsplit := fun '(_, _, upath, query, _) =>
       if String.eqb query "" then upath else upath +:+ "?" +:+ query;
     if_modified_since := fun v =>
       if String.eqb v "Fri, 01 Jan 2100 00:00:00 GMT" then Some 4102444800
       else None;
     error_message := fun code message explain =>
       "Error code: " +:+ str code +:+ LF +:+ "Message: " +:+ message
       +:+ "." +:+ LF +:+ "Explanation: " +:+ explain +:+ "." +:+ LF;
     directory_listing := fun _ _ _ names => Some (join names);
     getfilesystemencoding := "utf-8";
     repr := fun s => "'" +:+ s +:+ "'";
     COPY_BUFSIZE := 4 |}.

(** A served directory with [model.glb] (ten bytes), [model.GLB],
    [scene.GLTF] and a file that cannot be opened. *)
Definition example_fs : filesystem := fun fpath =>
  if String.eqb fpath "/srv/model.glb" then
    Some (File "0123456789" true 1793610000)
  else if String.eqb fpath "/srv/model.GLB" then
    Some (File "0123456789" true 1793610000)
  else if String.eqb fpath "/srv/scene.GLTF" then
    Some (File "{}" true 1793610000)
  else if String.eqb fpath "/srv/locked.bin" then
    Some (File "secret" false 1793610000)
  else if String.eqb fpath "/srv" then
    Some (Dir (Some ["locked.bin"; "model.GLB"; "model.glb"; "scene.GLTF"]))
  else if String.eqb fpath "/srv/" then
    Some (Dir (Some ["locked.bin"; "model.GLB"; "model.glb"; "scene.GLTF"]))
  else None.


Definition example_cors : handler_class := CORSHandler example_platform.

(** The bytes of a request: the request line, the header lines and the
    blank line, each ended by CR LF. *)
Definition request_text (requestline : string) (fields : list string)
  : string :=
  requestline +:+ CRLF +:+ join ((fun f => f +:+ CRLF) <$> fields) +:+ CRLF.

(** What the example server writes to the socket on a request. *)
Definition example_response (rfile : string) : list string :=
  wfile (handle_one_request example_platform example_fs example_cors
           setup rfile).1.

(** The handler after [parse_request] on a request. *)
Definition example_handler (rfile : string) : handler :=
  let '(raw_requestline, rfile) := readline 65537 rfile in
  (parse_request example_platform example_cors setup raw_requestline rfile).1.

Fixpoint repeat_char (c : ascii) (n : nat) : string :=
  match n with
  | O => EmptyString
  | S n' => String c (repeat_char c n')
  end.

(** An interpreter with the default limit of 4300 digits and its standard
    output on a terminal, on a system that grants every call. *)
Definition example_system : system :=
  {| max_str_digits := 4300; os_socket := true; os_bind := fun _ => true;
     os_getsockname := true; os_listen := true; os_write := true;
     stdout := LineBuffered |}.

(** The same with standard output on a pipe or in a file, and with the
    interpreter run without buffers. *)
Definition piped_system : system :=
  {| max_str_digits := 4300; os_socket := true; os_bind := fun _ => true;
     os_getsockname := true; os_listen := true; os_write := true;
     stdout := BlockBuffered |}.


(** The same as [example_system] on a system that grants no port. *)
Definition refusing_system : system :=
  {| max_str_digits := 4300; os_socket := true; os_bind := fun _ => false;
     os_getsockname := true; os_listen := true; os_write := true;
     stdout := LineBuffered |}.

(** * Notions used in the statements *)

(** The three entries the subclass sets. *)
Definition overrides : list (string * string) :=
  [(".gltf", "model/gltf+json");
   (".glb", "model/gltf-binary");
   (".bin", "application/octet-stream")].

Definition overridden (ext : string) : bool :=
  String.eqb ext ".gltf" || String.eqb ext ".glb" || String.eqb ext ".bin".

(** The two header lines of [CORSHandler.end_headers] and the blank line
    that ends the header block. *)
Definition cors_tail : string :=
  header_line "Access-Control-Allow-Origin" "*"
  +:+ header_line "Cache-Control" "no-cache" +:+ CRLF.

(** [h'] is [h] with the lines [ls] added to the header buffer and, at
    most, another connection flag. *)
Record extends (h h' : handler) (ls : list string) : Prop := {
  ext_version : request_version h' = request_version h;
  ext_wfile : wfile h' = wfile h;
  ext_buffer : _headers_buffer h' = _headers_buffer h ++ ls;
  ext_command : command h' = command h;
  ext_headers : headers h' = headers h;
  ext_path : path h' = path h;
}.

(** [parse_request] accepts the request that [rfile] starts with, on a new
    connection, and leaves the handler [h]: the request line is not longer
    than 65536 bytes and not empty, and the method returns [True]. *)
Definition accepted (P : platform) (rfile : string) (h : handler) : Prop :=
  len (readline 65537 rfile).1 <= 65536
  /\ (readline 65537 rfile).1 <> ""
  /\ parse_request P (CORSHandler P) setup
       (readline 65537 rfile).1 (readline 65537 rfile).2 = (h, true).

(** [h'] has written and buffered what [h] has. *)
Definition unsent (h h' : handler) : Prop :=
  wfile h' = wfile h /\ _headers_buffer h' = _headers_buffer h.

(** A handler that has sent nothing yet, on a request that is not
    HTTP/0.9. *)
Definition fresh (h : handler) : Prop :=
  is_http09 h = false /\ wfile h = [] /\ _headers_buffer h = [].

(** What was written starts with a header block: a status line with
    [code], header lines, the two headers of [CORSHandler] and the blank
    line, in one write. *)
Definition cors_response (code : Z) (w : list string) : Prop :=
  exists message pre rest,
    w = (status_line code message +:+ pre +:+ cors_tail) :: rest.

Definition has_cors_head (w : list string) : Prop :=
  exists code, cors_response code w.

(** The outcome of a method that sends the head of a response: what it
    wrote starts with a header block that ends with the two headers of
    [CORSHandler], or it raised and left the handler [h] as it was. *)
Definition answered_or_raised (h : handler)
    (r : handler * result (option string)) : Prop :=
  has_cors_head (wfile r.1) \/ (exists e, r.2 = Raise e /\ r.1 = h).


Definition is_digit (c : ascii) : bool := in_range 48 57 c.

(** White space for [int()] among the code points below 256: the ASCII
    white space of [Py_ISSPACE], and U+0085 and U+00A0, which the
    transformation turns into spaces. *)
Definition is_space (c : ascii) : bool :=
  Py_ISSPACE c || (ord c =? 133) || (ord c =? 160).

(** A text with every code point from 127 on replaced by a space. *)
Fixpoint to_ascii_space (s : string) : string :=
  match s with
  | EmptyString => EmptyString
  | String c s' =>
      String (if ord c <? 127 then c else " "%char) (to_ascii_space s')
  end.

(** The number a string of decimal digits denotes. *)
Fixpoint decimal_value_from (acc : Z) (ds : string) : Z :=
  match ds with
  | EmptyString => acc
  | String c ds' => decimal_value_from (10 * acc + (ord c - 48)) ds'
  end.

Definition decimal_value (ds : string) : Z := decimal_value_from 0 ds.

Definition sign_value (sign : string) : Z :=
  if String.eqb sign "-" then -1 else 1.

(** The characters a text that [int()] accepts in base 10 can hold: white
    space, a sign, decimal digits and underscores. *)
Definition port_char (c : ascii) : bool :=
  is_space c || (ord c =? 43) || (ord c =? 45) || is_digit c
  || is_underscore c.

(** The same after the transformation to ASCII. *)
Definition ascii_port_char (c : ascii) : bool :=
  Py_ISSPACE c || (ord c =? 43) || (ord c =? 45) || is_digit c
  || is_underscore c.

(** The reason phrase and the explanation [send_error] uses. *)
Definition error_reason (P : platform) (code : Z) (message : option string)
  : string :=
  default (match responses P code with
           | Some (short, _) => short
           | None => "???"
           end) message.

Definition error_explanation (P : platform) (code : Z)
    (explain : option string) : string :=
  default (match responses P code with
           | Some (_, long) => long
           | None => "???"
           end) explain.

(** The header block of an error response that has a page. *)
Definition error_head (P : platform) (code : Z) (message : string)
    (page : string) : string :=
  join [status_line code message;
        header_line "Server" (version_string P);
        header_line "Date" (date_time_string P None);
        header_line "Connection" "close";
        header_line "Content-Type" error_content_type;
        header_line "Content-Length" (str (Z.of_nat (String.length page)));
        header_line "Access-Control-Allow-Origin" "*";
        header_line "Cache-Control" "no-cache";
        CRLF].






(** Whether [print] on a stream opened in this way calls [write] before it
    returns. *)
Definition writes_at_once (s : stdio) : bool :=
  match s with
  | Unbuffered | LineBuffered => true
  | NoStdout | BlockBuffered => false
  end.

(** The calls of a constructor of the server that succeeds. *)
Definition started (port : Z) : list event :=
  [Socket; Bind "" port; GetSockName; Listen].


(** The handler that [parse_request] leaves on a new connection for a
    request line with the command [word], the target [target] and the
    version [version], followed by the header lines [lines]. *)
Definition parsed (P : platform) (word target version : string)
    (lines : list string) : handler :=
  {| command := Some word;
     path := if String.prefix "//" target then "/" +:+ lstrip target
             else target;
     request_version := version;
     headers := message_from_string P (join lines);
     _headers_buffer := []; wfile := []; close_connection := true |}.


(** * Properties *)

(** ** The MIME type table *)

Lemma overridden_false ext :
  overridden ext = false -> ext <> ".gltf" /\ ext <> ".glb" /\ ext <> ".bin".
Proof.
  unfold overridden. intros H.
  apply orb_false_iff in H as [H Hbin].
  apply orb_false_iff in H as [Hgltf Hglb].
  rewrite String.eqb_neq in Hgltf, Hglb, Hbin. done.
Qed.

Lemma cors_map_other P ext :
  ext <> ".gltf" -> ext <> ".glb" -> ext <> ".bin" ->
  extensions_map (CORSHandler P) !! ext = base_extensions_map P !! ext.
Proof.
  intros Hgltf Hglb Hbin. unfold CORSHandler. simpl.
  rewrite !lookup_insert_ne by congruence. done.
Qed.

Lemma cors_map_override P ext ctype :
  (ext, ctype) ∈ overrides ->
  extensions_map (CORSHandler P) !! ext = Some ctype.
Proof.
  unfold overrides. rewrite !elem_of_cons, elem_of_nil.
  intros [H | [H | [H | []]]]; inversion H; subst; unfold CORSHandler; simpl.
  - rewrite !lookup_insert_ne by done. apply lookup_insert_eq.
  - rewrite lookup_insert_ne by done. apply lookup_insert_eq.
  - apply lookup_insert_eq.
Qed.

Lemma guess_type_exact P cls fpath t :
  extensions_map cls !! (splitext fpath).2 = Some t ->
  guess_type P cls fpath = t.
Proof.
  unfold guess_type. destruct (splitext fpath) as [b ext]; simpl.
  intros ->. done.
Qed.

Lemma guess_type_lower P cls fpath t :
  extensions_map cls !! (splitext fpath).2 = None ->
  extensions_map cls !! lower (splitext fpath).2 = Some t ->
  guess_type P cls fpath = t.
Proof.
  unfold guess_type. destruct (splitext fpath) as [b ext]; simpl.
  intros -> ->. done.
Qed.

(** ** Strings and the copy loop *)

Lemma append_cons (x : ascii) (a b : string) :
  String x a +:+ b = String x (a +:+ b).
Proof. reflexivity. Qed.

Lemma append_assoc (a b c : string) : (a +:+ b) +:+ c = a +:+ (b +:+ c).
Proof.
  induction a as [|x a IH]; [done |].
  by rewrite !append_cons, IH.
Qed.

Lemma append_empty_r (a : string) : a +:+ "" = a.
Proof.
  induction a as [|x a IH]; [done |].
  by rewrite append_cons, IH.
Qed.

Lemma join_app (xs ys : list string) : join (xs ++ ys) = join xs +:+ join ys.
Proof.
  induction xs as [|x xs IH]; [done |].
  change (x +:+ join (xs ++ ys) = (x +:+ join xs) +:+ join ys).
  by rewrite IH, append_assoc.
Qed.

Lemma take_drop_chars n s : take_chars n s +:+ drop_chars n s = s.
Proof.
  revert s. induction n as [|n IH]; intros [|c s]; simpl; try done.
  by rewrite append_cons, IH.
Qed.

Lemma take_chars_empty n s : (0 < n)%nat -> take_chars n s = "" -> s = "".
Proof. destruct n, s; simpl; intros; (done || lia). Qed.

Lemma drop_chars_length n s :
  (String.length (drop_chars n s) <= String.length s)%nat.
Proof.
  revert s. induction n as [|n IH]; intros [|c s]; simpl; try lia.
  specialize (IH s). lia.
Qed.

Lemma drop_chars_shorter n s :
  (0 < n)%nat -> s <> "" ->
  (String.length (drop_chars n s) < String.length s)%nat.
Proof.
  destruct n, s; simpl; intros; try (done || lia).
  pose proof (drop_chars_length n s). lia.
Qed.

(** The copy loop writes the bytes of the file, in pieces, after what was
    already written, provided the buffer length is positive and the fuel
    exceeds the number of bytes. *)
Lemma copy_loop_wfile fuel n fsrc h :
  (0 < n)%nat -> (String.length fsrc < fuel)%nat ->
  exists chunks,
    wfile (copy_loop fuel n fsrc h) = wfile h ++ chunks /\ join chunks = fsrc.
Proof.
  intros Hn. revert fsrc h.
  induction fuel as [|fuel IH]; intros fsrc h Hlen; [lia |].
  simpl. destruct (String.eqb_spec (take_chars n fsrc) "") as [Hbuf | Hbuf].
  - exists []. rewrite app_nil_r. split; [done |].
    symmetry. by apply (take_chars_empty n).
  - assert (fsrc <> "") as Hne by (intros ->; by destruct n).
    destruct (IH (drop_chars n fsrc) (write h (take_chars n fsrc)))
      as (chunks & Hw & Hj).
    { pose proof (drop_chars_shorter n fsrc Hn Hne). lia. }
    exists (take_chars n fsrc :: chunks). split.
    + rewrite Hw. simpl. by rewrite <- app_assoc.
    + simpl. rewrite Hj. apply take_drop_chars.
Qed.

Lemma copyfile_wfile P fsrc h :
  exists chunks,
    wfile (copyfile P fsrc h) = wfile h ++ chunks /\ join chunks = fsrc.
Proof. apply copy_loop_wfile; lia. Qed.

(** ** Header lines and the end of the header block *)

Lemma extends_trans h h1 h2 l1 l2 :
  extends h h1 l1 -> extends h1 h2 l2 -> extends h h2 (l1 ++ l2).
Proof.
  intros [] []. constructor; try congruence.
  rewrite app_assoc. congruence.
Qed.

Lemma extends_http09 h h' ls : extends h h' ls -> is_http09 h' = is_http09 h.
Proof. intros []. unfold is_http09. congruence. Qed.

Lemma send_header_extends h keyword value :
  is_http09 h = false ->
  extends h (send_header h keyword value) [header_line keyword value].
Proof.
  intros H. unfold send_header. rewrite H.
  repeat destruct (String.eqb _ _); by constructor.
Qed.

Lemma send_header_http09 h keyword value :
  is_http09 h = true ->
  wfile (send_header h keyword value) = wfile h
  /\ _headers_buffer (send_header h keyword value) = _headers_buffer h
  /\ is_http09 (send_header h keyword value) = true.
Proof.
  intros H. unfold send_header. rewrite H.
  repeat destruct (String.eqb _ _); by repeat split.
Qed.

Lemma send_response_extends P h code message :
  is_http09 h = false ->
  extends h (send_response P h code message)
    [status_line code (default (short_message P code) message);
     header_line "Server" (version_string P);
     header_line "Date" (date_time_string P None)].
Proof.
  intros H. unfold send_response.
  assert (extends h (send_response_only P h code message)
            [status_line code (default (short_message P code) message)])
    as E1.
  { unfold send_response_only. rewrite H. by constructor. }
  pose proof (extends_http09 _ _ _ E1) as H1. rewrite H in H1.
  pose proof (send_header_extends _ "Server" (version_string P) H1) as E2.
  pose proof (extends_http09 _ _ _ E2) as H2. rewrite H1 in H2.
  pose proof (send_header_extends _ "Date" (date_time_string P None) H2)
    as E3.
  exact (extends_trans _ _ _ _ _ E1 (extends_trans _ _ _ _ _ E2 E3)).
Qed.

(** [CORSHandler.end_headers] on a request that is not HTTP/0.9: one write
    of the buffered lines, the two headers and the blank line; the buffer
    is left empty. *)
Lemma cors_end_headers P h :
  is_http09 h = false ->
  wfile (end_headers (CORSHandler P) h)
  = wfile h ++ [join (_headers_buffer h) +:+ cors_tail]
  /\ _headers_buffer (end_headers (CORSHandler P) h) = []
  /\ command (end_headers (CORSHandler P) h) = command h
  /\ request_version (end_headers (CORSHandler P) h) = request_version h.
Proof.
  intros H. unfold CORSHandler. simpl.
  pose proof (send_header_extends h "Access-Control-Allow-Origin" "*" H)
    as E1.
  pose proof (extends_http09 _ _ _ E1) as H1. rewrite H in H1.
  pose proof (send_header_extends _ "Cache-Control" "no-cache" H1) as E2.
  pose proof (extends_http09 _ _ _ E2) as H2. rewrite H1 in H2.
  pose proof (extends_trans _ _ _ _ _ E1 E2) as [Ev Ew Eb Ec Eh Ep].
  unfold base_end_headers. rewrite H2. simpl.
  rewrite Ew, Eb, Ec, Ev. repeat split.
  rewrite !join_app. simpl. unfold cors_tail.
  by rewrite append_empty_r, !append_assoc.
Qed.

(** On an HTTP/0.9 request it writes nothing. *)
Lemma cors_end_headers_http09 P h :
  is_http09 h = true ->
  wfile (end_headers (CORSHandler P) h) = wfile h.
Proof.
  intros H. unfold CORSHandler. simpl.
  destruct (send_header_http09 h "Access-Control-Allow-Origin" "*" H)
    as (Hw1 & _ & H1).
  destruct (send_header_http09 _ "Cache-Control" "no-cache" H1)
    as (Hw2 & _ & H2).
  unfold base_end_headers. rewrite H2. congruence.
Qed.

(** ** The shape of a response *)

Lemma cors_response_app code w l :
  cors_response code w -> cors_response code (w ++ l).
Proof.
  intros (message & pre & rest & ->).
  by exists message, pre, (rest ++ l).
Qed.

Lemma end_headers_response P h0 h code message ls :
  fresh h0 -> extends h0 h (status_line code message :: ls) ->
  wfile (end_headers (CORSHandler P) h)
  = [status_line code message +:+ join ls +:+ cors_tail]
  /\ command (end_headers (CORSHandler P) h) = command h0.
Proof.
  intros (H0 & Hw & Hb) E.
  pose proof (extends_http09 _ _ _ E) as H. rewrite H0 in H.
  destruct (cors_end_headers P h H) as (-> & _ & -> & _).
  destruct E as [_ -> -> -> _ _]. rewrite Hw, Hb. simpl.
  by rewrite append_assoc.
Qed.

Lemma extends_cons h1 h2 h3 (l : string) ls k v :
  extends h1 h2 (l :: ls) -> h3 = send_header h2 k v ->
  is_http09 h1 = false ->
  extends h1 h3 (l :: ls ++ [header_line k v]).
Proof.
  intros E -> H1.
  pose proof (extends_http09 _ _ _ E) as H2. rewrite H1 in H2.
  exact (extends_trans _ _ _ _ _ E (send_header_extends _ k v H2)).
Qed.

(** Follow the header lines a method sends after [send_response], then
    its call of [end_headers]. *)
Ltac start_response H0 :=
  match goal with
  | |- context [send_response ?P ?h ?code ?m] =>
      let E := fresh "E" in
      pose proof (send_response_extends P h code m H0) as E
  end.

Ltac next_header H0 :=
  match goal with
  | E : extends ?h ?h2 (_ :: _) |- context [send_header ?h2 ?k ?v] =>
      let E' := fresh "E" in
      pose proof (extends_cons _ _ _ _ _ k v E eq_refl H0) as E'; clear E
  end.

Ltac finish_headers Hf :=
  match goal with
  | E : extends _ ?h2 (status_line _ _ :: _)
    |- context [end_headers (CORSHandler ?P) ?h2] =>
      let Hw := fresh "Hw" in
      let Hc := fresh "Hc" in
      destruct (end_headers_response P _ _ _ _ _ Hf E) as (Hw & Hc);
      rewrite ?Hw, ?Hc
  end.

Ltac headers_sent Hf H0 :=
  start_response H0; repeat next_header H0; finish_headers Hf.

Lemma send_error_response P h code message explain :
  fresh h ->
  cors_response code
    (wfile (send_error P (CORSHandler P) h code message explain)).
Proof.
  intros Hf. pose proof Hf as (H0 & _ & _).
  unfold send_error. destruct (responses P code) as [[short long]|].
  all: destruct (_ && _); headers_sent Hf H0.
  all: try destruct (_ && _); try apply cors_response_app; rewrite ?Hw.
  all: by eexists _, _, [].
Qed.

Lemma has_cors_head_app w l : has_cors_head w -> has_cors_head (w ++ l).
Proof. intros [code H]. exists code. by apply cors_response_app. Qed.

Lemma send_error_head P h code message explain :
  fresh h ->
  has_cors_head (wfile (send_error P (CORSHandler P) h code message explain)).
Proof. intros. eexists. by apply send_error_response. Qed.

Lemma send_file_head P fs h fpath :
  fresh h ->
  answered_or_raised h (send_file P fs (CORSHandler P) h fpath).
Proof.
  intros Hf. pose proof Hf as (H0 & _ & _). unfold send_file.
  destruct (endswith_slash fpath); [left; by apply send_error_head |].
  destruct (open_rb P fs fpath) as [[contents mtime]|[]].
  2,3,4: try (left; by apply send_error_head); right; by eexists.
  left. destruct (not_modified P (headers h) mtime); cbn [fst].
  all: headers_sent Hf H0; by eexists _, _, _, [].
Qed.

Lemma list_directory_head P fs h fpath :
  fresh h ->
  answered_or_raised h (list_directory P fs (CORSHandler P) h fpath).
Proof.
  intros Hf. pose proof Hf as (H0 & _ & _). unfold list_directory.
  destruct (listdir P fs fpath) as [names|[]].
  2,3,4: try (left; by apply send_error_head); right; by eexists.
  destruct (directory_listing P fs (path h) fpath names) as [encoded|];
    [| right; by eexists].
  left. cbn [fst]. headers_sent Hf H0. by eexists _, _, _, [].
Qed.

Lemma send_head_head P fs h :
  fresh h -> answered_or_raised h (send_head P fs (CORSHandler P) h).
Proof.
  intros Hf. pose proof Hf as (H0 & _ & _). unfold send_head.
  destruct (isdir P fs _); [| by apply send_file_head].
  destruct (urlsplit P (path h)) as [[[[[scheme netloc] upath] query] frag]|];
    [| right; by eexists].
  destruct (negb _).
  { left. cbn [fst]. headers_sent Hf H0. by eexists _, _, _, []. }
  repeat (destruct (isfile P fs _); [by apply send_file_head |]).
  by apply list_directory_head.
Qed.

Lemma mname_eqb word name :
  String.eqb ("do_" +:+ word) ("do_" +:+ name) = String.eqb word name.
Proof. reflexivity. Qed.


Lemma call_method_GET P fs cls h :
  command h = Some "GET" -> call_method P fs cls h = do_GET P fs cls h.
Proof. intros Hc. unfold call_method. by rewrite Hc. Qed.

Lemma call_method_HEAD P fs cls h :
  command h = Some "HEAD" -> call_method P fs cls h = do_HEAD P fs cls h.
Proof. intros Hc. unfold call_method. by rewrite Hc. Qed.


(** A request that was parsed is answered with a header block that ends
    with the two headers, unless the method raises, which it does before
    it has written anything. *)
Lemma call_method_head P fs h :
  fresh h ->
  has_cors_head (wfile (call_method P fs (CORSHandler P) h).1)
  \/ (exists e, (call_method P fs (CORSHandler P) h).2 = Some e
                /\ (call_method P fs (CORSHandler P) h).1 = h).
Proof.
  intros Hf. unfold call_method, do_GET, do_HEAD.
  pose proof (send_head_head P fs h Hf) as Hh.
  destruct (String.eqb _ "do_GET").
  { destruct (send_head _ _ _ _) as [h' [[f|]|e]];
      destruct Hh as [Hh | (e' & He & Hh)]; cbn [fst snd] in *;
      try discriminate.
    - left. destruct (copyfile_wfile P f h') as (chunks & -> & _).
      by apply has_cors_head_app.
    - by left.
    - by left.
    - right. subst. by eexists. }
  destruct (String.eqb _ "do_HEAD").
  { destruct (send_head _ _ _ _) as [h' [f|e]];
      destruct Hh as [Hh | (e' & He & Hh)]; cbn [fst snd] in *;
      try discriminate.
    - by left.
    - by left.
    - right. subst. by eexists. }
  left. by apply send_error_head.
Qed.

(** ** Reading a request *)

Lemma protocol_version_old : String.leb "HTTP/1.1" protocol_version = false.
Proof. reflexivity. Qed.

Lemma send_header_version h keyword value :
  request_version (send_header h keyword value) = request_version h.
Proof.
  unfold send_header.
  destruct (is_http09 h); repeat destruct (String.eqb _ _); done.
Qed.

Lemma send_response_version P h code message :
  request_version (send_response P h code message) = request_version h.
Proof.
  unfold send_response. rewrite !send_header_version.
  unfold send_response_only. by destruct (is_http09 h).
Qed.

Lemma cors_end_headers_version P h :
  request_version (end_headers (CORSHandler P) h) = request_version h.
Proof.
  unfold CORSHandler, SimpleHTTPRequestHandler. cbn [end_headers].
  unfold base_end_headers.
  destruct (is_http09 _); cbn [flush_headers with_buffer write request_version];
    by rewrite !send_header_version.
Qed.

Lemma send_error_version P h code message explain :
  request_version (send_error P (CORSHandler P) h code message explain)
  = request_version h.
Proof.
  unfold send_error. destruct (responses P code) as [[short long]|].
  all: cbn zeta.
  all: destruct (_ && _);
    [destruct (_ && _); unfold write; cbn [request_version] |].
  all: rewrite cors_end_headers_version, ?send_header_version.
  all: apply send_response_version.
Qed.

(** The three ways [parse_request] ends: without a word on the request
    line it returns [False] and sends nothing; or it returns [False] after
    [send_error] on a handler that had sent nothing more; or it returns
    [True] with the command set, nothing more sent and the connection
    flag set. *)
Lemma parse_request_cases P cls h0 raw rest :
  let r := parse_request P cls h0 raw rest in
  (r.2 = false /\ str_split (rstrip raw) = []
   /\ r.1 = with_close (with_version (with_command h0 None) "HTTP/0.9") true)
  \/ (r.2 = false
      /\ exists h1 code message explain,
           r.1 = send_error P cls h1 code message explain /\ unsent h0 h1)
  \/ (r.2 = true /\ unsent h0 r.1 /\ close_connection r.1 = true
      /\ exists word, command r.1 = Some word).
Proof.
  unfold parse_request.
  change (String.leb "HTTP/1.1" protocol_version) with false.
  assert (forall h1 code message explain b,
            unsent h0 h1 ->
            let r := (send_error P cls h1 code message explain, b) in
            b = false ->
            (r.2 = false /\ str_split (rstrip raw) = []
             /\ r.1 = with_close
                        (with_version (with_command h0 None) "HTTP/0.9") true)
            \/ (r.2 = false
                /\ exists h1 code message explain,
                     r.1 = send_error P cls h1 code message explain
                     /\ unsent h0 h1)
            \/ (r.2 = true /\ unsent h0 r.1 /\ close_connection r.1 = true
                /\ exists word, command r.1 = Some word)) as Herror.
  { intros h1 code message explain b Hu r ->. right. left.
    split; [done |]. by exists h1, code, message, explain. }
  destruct (str_split (rstrip raw)) as [|w0 [|w1 [|w2 [|w3 ws]]]].
  - left. done.
  - cbn -[send_error]. by apply Herror.
  - cbn -[_read_headers send_error].
    destruct (negb (String.eqb w0 "GET")); [by apply Herror |].
    destruct (_read_headers rest) as [[]|lines]; cbn -[send_error].
    1,2: apply Herror; [| done]; by destruct (String.prefix _ _).
    right. right. rewrite !andb_false_r. cbn [andb fst snd].
    repeat destruct (String.eqb _ _); destruct (String.prefix _ _);
      (split; [done |]; split; [done |]; split; [done |]; by eexists).
  - cbn -[_read_headers send_error version_number tuple_ge].
    destruct (version_number _ _) as [number|]; [| by apply Herror].
    rewrite andb_false_r.
    destruct (tuple_ge number (2, 0)); [by apply Herror |].
    cbn -[_read_headers send_error].
    destruct (_read_headers rest) as [[]|lines]; cbn -[send_error].
    1,2: apply Herror; [| done]; by destruct (String.prefix _ _).
    right. right. rewrite !andb_false_r. cbn [andb fst snd].
    repeat destruct (String.eqb _ _); destruct (String.prefix _ _);
      (split; [done |]; split; [done |]; split; [done |]; by eexists).
  - cbn -[send_error version_number tuple_ge List.last].
    destruct (version_number _ _) as [number|]; [| by apply Herror].
    rewrite andb_false_r.
    destruct (tuple_ge number (2, 0)); by apply Herror.
Qed.

Lemma accepted_handle P fs rfile h :
  accepted P rfile h ->
  handle_one_request P fs (CORSHandler P) setup rfile
  = call_method P fs (CORSHandler P) h.
Proof.
  intros (Hlen & Hne & Hp). unfold handle_one_request.
  destruct (readline 65537 rfile) as [raw rest]. cbn [fst snd] in *.
  destruct (Z.ltb_spec 65536 (len raw)); [lia |].
  apply String.eqb_neq in Hne. by rewrite Hne, Hp.
Qed.

Lemma accepted_state P rfile h :
  accepted P rfile h ->
  wfile h = [] /\ _headers_buffer h = [] /\ close_connection h = true
  /\ exists word, command h = Some word.
Proof.
  intros (_ & _ & Hp).
  destruct (parse_request_cases P (CORSHandler P) setup
              (readline 65537 rfile).1 (readline 65537 rfile).2)
    as [(Hb & _) | [(Hb & _) | (_ & (Hw & Hbuf) & Hc & Hword)]];
    rewrite Hp in *; cbn [fst snd] in *; try discriminate.
  done.
Qed.


(** ** Serving a file *)

Lemma os_stat_file P fs fpath contents readable mtime :
  os_stat P fs fpath = Ok (Some (File contents readable mtime)) ->
  isdir P fs fpath = false /\ isfile P fs fpath = true.
Proof. intros H. unfold isdir, isfile. by rewrite H. Qed.




Lemma status_code_200 message more rest :
  status_code ((status_line 200 message +:+ more) :: rest) = Some "200".
Proof. reflexivity. Qed.





(** ** [int()] on decimal text *)

Ltac char_cases :=
  unfold Py_ISSPACE, Py_UNICODE_TODECIMAL, is_digit, is_underscore, in_range
    in *;
  repeat match goal with
         | |- context [?a <=? ?b] => destruct (Z.leb_spec a b)
         | |- context [?a <? ?b] => destruct (Z.ltb_spec a b)
         | |- context [?a =? ?b] => destruct (Z.eqb_spec a b)
         | H : context [?a <=? ?b] |- _ => destruct (Z.leb_spec a b)
         | H : context [?a <? ?b] |- _ => destruct (Z.ltb_spec a b)
         | H : context [?a =? ?b] |- _ => destruct (Z.eqb_spec a b)
         end;
  simpl in *; try done; try lia.

Lemma space_char c :
  Py_ISSPACE c = true ->
  is_underscore c = false /\ Py_UNICODE_TODECIMAL c = None
  /\ (ord c =? 43) = false /\ (ord c =? 45) = false /\ (ord c <? 127) = true.
Proof. intros H. repeat split; char_cases. Qed.

Lemma digit_char c :
  is_digit c = true ->
  is_underscore c = false /\ Py_UNICODE_TODECIMAL c = Some (ord c - 48)
  /\ (ord c =? 43) = false /\ (ord c =? 45) = false /\ (ord c <? 127) = true
  /\ Py_ISSPACE c = false.
Proof. intros H. repeat split; char_cases. Qed.

Lemma string_forallb_app p a b :
  string_forallb p (a +:+ b) = string_forallb p a && string_forallb p b.
Proof.
  induction a as [|x a IH]; [done |].
  rewrite append_cons. simpl. by rewrite IH, andb_assoc.
Qed.

Lemma string_forallb_impl (p q : ascii -> bool) s :
  (forall c, p c = true -> q c = true) ->
  string_forallb p s = true -> string_forallb q s = true.
Proof.
  intros Hpq. induction s as [|c s IH]; simpl; [done |].
  intros [Hc Hs]%andb_true_iff. by rewrite (Hpq c Hc), IH.
Qed.

Lemma to_ascii_space_app a b :
  to_ascii_space (a +:+ b) = to_ascii_space a +:+ to_ascii_space b.
Proof.
  induction a as [|x a IH]; [done |].
  rewrite append_cons. simpl. by rewrite IH.
Qed.

Lemma to_ascii_space_id s :
  string_forallb (fun c => ord c <? 127) s = true -> to_ascii_space s = s.
Proof.
  induction s as [|c s IH]; simpl; [done |].
  intros [-> Hs]%andb_true_iff. by rewrite IH.
Qed.

Lemma to_ascii_space_spaces ws :
  string_forallb is_space ws = true ->
  string_forallb Py_ISSPACE (to_ascii_space ws) = true.
Proof.
  induction ws as [|c ws IH]; simpl; [done |].
  intros [Hc Hs]%andb_true_iff. rewrite (IH Hs), andb_true_r.
  destruct (Z.ltb_spec (ord c) 127); [| done].
  unfold is_space in Hc. char_cases.
Qed.

(** On white space, a sign and digits, the transformation only turns the
    white space beyond ASCII into spaces. *)
Lemma transform_text s :
  string_forallb (fun c => (ord c <? 127) || is_space c) s = true ->
  transform_decimal_and_space s = to_ascii_space s.
Proof.
  intros H. unfold transform_decimal_and_space.
  destruct (is_ascii s) eqn:A.
  - symmetry. apply to_ascii_space_id. unfold is_ascii in A.
    induction s as [|c s IH]; simpl in *; [done |].
    apply andb_true_iff in H as [Hc Hs].
    apply andb_true_iff in A as [Ac As].
    rewrite (IH Hs As), andb_true_r.
    unfold is_space in Hc. char_cases.
  - clear A. induction s as [|c s IH]; simpl in *; [done |].
    apply andb_true_iff in H as [Hc Hs]. rewrite (IH Hs).
    destruct (Z.ltb_spec (ord c) 127); [done |].
    assert (Py_UNICODE_ISSPACE c = true) as ->; [| done].
    unfold is_space, Py_UNICODE_ISSPACE in *. char_cases.
Qed.

Lemma skip_space_app ws s :
  string_forallb Py_ISSPACE ws = true ->
  skip_space (ws +:+ s) = skip_space s.
Proof.
  induction ws as [|c ws IH]; [done |].
  rewrite append_cons. simpl. intros [-> Hs]%andb_true_iff. by apply IH.
Qed.

Lemma skip_space_all ws :
  string_forallb Py_ISSPACE ws = true -> skip_space ws = "".
Proof.
  intros H. rewrite <- (append_empty_r ws). by rewrite skip_space_app.
Qed.

(** The scan loop reads a run of digits that is followed by white space
    only: it stops at the white space with the value of the digits. *)
Lemma scan_digits_run ds ws prev digits acc :
  string_forallb is_digit ds = true ->
  string_forallb Py_ISSPACE ws = true ->
  exists prev',
    scan_digits (ds +:+ ws) prev digits acc
    = Some (prev', (digits + String.length ds)%nat,
            decimal_value_from acc ds, ws)
    /\ (ds = "" -> prev' = prev)
    /\ (ds <> "" -> is_digit prev' = true).
Proof.
  intros Hds Hws. revert prev digits acc.
  induction ds as [|c ds IH]; intros prev digits acc.
  - exists prev. split; [| done]. simpl.
    rewrite Nat.add_0_r. destruct ws as [|c ws]; [done |].
    simpl in Hws. apply andb_true_iff in Hws as [Hc _].
    destruct (space_char c Hc) as (Hu & Hd & _).
    change ("" +:+ String c ws) with (String c ws). simpl.
    by rewrite Hu, Hd.
  - simpl in Hds. apply andb_true_iff in Hds as [Hc Hds].
    destruct (digit_char c Hc) as (Hu & Hd & _).
    destruct (IH Hds c (S digits) (10 * acc + (ord c - 48)))
      as (prev' & Hscan & Hempty & Hdigit).
    exists prev'. rewrite append_cons. simpl. rewrite Hu, Hd, Hscan.
    split; [by rewrite Nat.add_succ_r |].
    split; [done |]. intros _.
    destruct (String.eqb_spec ds "") as [-> | Hne].
    + by rewrite Hempty.
    + by apply Hdigit.
Qed.

Lemma exceeds_limit_false max digits :
  (digits <= 640 \/ max = 0 \/ digits <= max)%nat ->
  exceeds_limit max digits = false.
Proof.
  intros H. unfold exceeds_limit, MAX_STR_DIGITS_THRESHOLD.
  destruct (Nat.ltb_spec 640 digits), (Nat.ltb_spec 0 max),
    (Nat.ltb_spec max digits); simpl; try done; lia.
Qed.

(** After the sign: digits, then white space to the end. *)
Lemma parse_digits max sign ds ws :
  ds <> "" -> string_forallb is_digit ds = true ->
  string_forallb Py_ISSPACE ws = true ->
  (String.length ds <= 640 \/ max = 0 \/ String.length ds <= max)%nat ->
  (if starts_with_underscore (ds +:+ ws) then Raise ValueError
   else match scan_digits (ds +:+ ws) "000"%char 0%nat 0 with
        | None => Raise ValueError
        | Some (prev, digits, acc, rest) =>
            if is_underscore prev then Raise ValueError
            else if exceeds_limit max digits then Raise ValueError
            else if (digits =? 0)%nat then Raise ValueError
            else match skip_space rest with
                 | EmptyString => Ok (sign * acc)
                 | String _ _ => Raise ValueError
                 end
        end)
  = Ok (sign * decimal_value ds).
Proof.
  intros Hne Hds Hws Hlimit.
  destruct (scan_digits_run ds ws "000"%char 0%nat 0 Hds Hws)
    as (prev' & -> & _ & Hprev).
  destruct (digit_char prev' (Hprev Hne)) as (-> & _).
  change (0 + String.length ds)%nat with (String.length ds).
  rewrite (exceeds_limit_false _ _ Hlimit), (skip_space_all ws Hws).
  destruct ds as [|c ds]; [done |].
  simpl in Hds. apply andb_true_iff in Hds as [Hc _].
  destruct (digit_char c Hc) as (Hu & _).
  rewrite append_cons. simpl. by rewrite Hu.
Qed.

Lemma int_of_str_decimal max ws1 sign ds ws2 :
  string_forallb is_space ws1 = true ->
  sign = "" \/ sign = "+" \/ sign = "-" ->
  ds <> "" -> string_forallb is_digit ds = true ->
  string_forallb is_space ws2 = true ->
  (String.length ds <= 640 \/ max = 0 \/ String.length ds <= max)%nat ->
  int_of_str max (ws1 +:+ sign +:+ ds +:+ ws2)
  = Ok (sign_value sign * decimal_value ds).
Proof.
  intros Hws1 Hsign Hne Hds Hws2 Hlimit. unfold int_of_str.
  assert (forall c, is_space c = true
                    -> (ord c <? 127) || is_space c = true) as Hspace
    by (intros c ->; apply orb_true_r).
  assert (forall c, is_digit c = true -> (ord c <? 127) = true) as Hd127
    by (intros c Hc; by destruct (digit_char c Hc) as (_ & _ & _ & _ & ? & _)).
  assert (forall c, is_digit c = true
                    -> (ord c <? 127) || is_space c = true) as Hdigit
    by (intros c Hc; by rewrite (Hd127 c Hc)).
  assert (string_forallb (fun c => ord c <? 127) sign = true) as Hs127
    by (by destruct Hsign as [-> | [-> | ->]]).
  rewrite transform_text.
  2:{ rewrite !string_forallb_app.
      rewrite (string_forallb_impl _ _ ws1 Hspace Hws1).
      rewrite (string_forallb_impl _ _ ds Hdigit Hds).
      rewrite (string_forallb_impl _ _ ws2 Hspace Hws2).
      by destruct Hsign as [-> | [-> | ->]]. }
  rewrite !to_ascii_space_app.
  rewrite (to_ascii_space_id sign Hs127).
  rewrite (to_ascii_space_id ds (string_forallb_impl _ _ ds Hd127 Hds)).
  apply to_ascii_space_spaces in Hws1, Hws2.
  unfold PyLong_FromString. rewrite (skip_space_app _ _ Hws1).
  pose proof (parse_digits max 1 ds _ Hne Hds Hws2 Hlimit) as Hpos.
  pose proof (parse_digits max (-1) ds _ Hne Hds Hws2 Hlimit) as Hneg.
  destruct Hsign as [-> | [-> | ->]].
  - change ("" +:+ ds +:+ to_ascii_space ws2)
      with (ds +:+ to_ascii_space ws2).
    destruct ds as [|c ds]; [done |].
    simpl in Hds. apply andb_true_iff in Hds as [Hc _].
    destruct (digit_char c Hc) as (_ & _ & H43 & H45 & _ & Hsp).
    rewrite append_cons in *. simpl skip_space. rewrite Hsp.
    unfold read_sign. rewrite H43, H45. exact Hpos.
  - change ("+" +:+ ds +:+ to_ascii_space ws2)
      with (String "+" (ds +:+ to_ascii_space ws2)).
    exact Hpos.
  - change ("-" +:+ ds +:+ to_ascii_space ws2)
      with (String "-" (ds +:+ to_ascii_space ws2)).
    exact Hneg.
Qed.

Lemma int_of_str_raises max s e :
  int_of_str max s = Raise e -> e = ValueError.
Proof.
  unfold int_of_str, PyLong_FromString.
  destruct (read_sign _) as [sign s2].
  destruct (starts_with_underscore s2); [congruence |].
  destruct (scan_digits _ _ _ _) as [[[[prev digits] acc] rest]|];
    [| congruence].
  repeat (destruct (_ : bool); [congruence |]).
  destruct (skip_space rest); congruence.
Qed.
(** ** Start-up *)

Lemma TCPServer_starts sys host port :
  (TCPServer sys host port).2 = None
  <-> os_socket sys = true /\ 0 <= port <= 65535 /\ os_bind sys port = true
      /\ os_getsockname sys = true /\ os_listen sys = true.
Proof.
  unfold TCPServer, server_bind, server_activate.
  destruct (os_socket sys), (Z.leb_spec 0 port), (Z.leb_spec port 65535),
    (os_bind sys port), (os_getsockname sys), (os_listen sys); simpl.
  all: split; [intros Hnone | intros (? & ? & ? & ? & ?)]; try done; try lia.
Qed.

Lemma TCPServer_started sys port :
  (TCPServer sys "" port).2 = None ->
  TCPServer sys "" port = (started port, None).
Proof.
  intros Hnone.
  pose proof Hnone as (Hs & Hr & Hb & Hg & Hl)%TCPServer_starts.
  unfold TCPServer, server_bind, server_activate.
  rewrite Hs, Hb, Hg, Hl.
  destruct (Z.leb_spec 0 port), (Z.leb_spec port 65535); simpl; (done || lia).
Qed.

Lemma TCPServer_no_value_error sys host port :
  (TCPServer sys host port).2 <> Some ValueError.
Proof.
  unfold TCPServer, server_bind, server_activate.
  destruct (os_socket sys), ((0 <=? port) && (port <=? 65535)),
    (os_bind sys port), (os_getsockname sys), (os_listen sys);
    simpl; congruence.
Qed.

Lemma print_raises sys text e :
  (print sys text).2 = Some e -> e = OSError.
Proof.
  unfold print, stdout_write.
  destruct (stdout sys), (os_write sys); simpl; congruence.
Qed.

Lemma serve_no_value_error sys port : (serve sys port).2 <> Some ValueError.
Proof.
  unfold serve.
  pose proof (TCPServer_no_value_error sys "" port) as Hs.
  destruct (TCPServer sys "" port) as [steps [e|]]; [done |].
  pose proof (print_raises sys (banner port)) as Hp.
  destruct (print sys (banner port)) as [printed [e|]]; simpl in *; [| done].
  rewrite (Hp e eq_refl). done.
Qed.


(** The constructor starts with the call that creates the socket; when
    the system does not create it nothing follows, and otherwise the next
    call, for a port in range, is the bind on that port. *)
Lemma serve_binds_first sys port :
  0 <= port <= 65535 ->
  (serve sys port = ([Socket], Some OSError) /\ os_socket sys = false)
  \/ (os_socket sys = true
      /\ exists rest, (serve sys port).1 = Socket :: Bind "" port :: rest).
Proof.
  intros Hrange. unfold serve, TCPServer, server_bind, server_activate.
  destruct (os_socket sys); [right; split; [done |] | by left].
  destruct (Z.leb_spec 0 port), (Z.leb_spec port 65535); try lia.
  destruct (os_bind sys port), (os_getsockname sys), (os_listen sys),
    (print sys (banner port)) as [printed [e|]]; simpl; by eexists.
Qed.

(** The ways the [with] statement goes: the socket is not created; the
    port is out of range; one of the later calls is refused; or all is
    granted and the request loop starts. *)
Lemma serve_cases sys port :
  (os_socket sys = false /\ serve sys port = ([Socket], Some OSError))
  \/ (os_socket sys = true /\ ~ 0 <= port <= 65535
      /\ serve sys port = ([Socket; Close], Some OverflowError))
  \/ (os_socket sys = true /\ 0 <= port <= 65535
      /\ os_bind sys port && os_getsockname sys && os_listen sys
         && (os_write sys || negb (writes_at_once (stdout sys))) = false
      /\ (serve sys port).2 = Some OSError)
  \/ (os_socket sys = true /\ 0 <= port <= 65535
      /\ os_bind sys port && os_getsockname sys && os_listen sys
         && (os_write sys || negb (writes_at_once (stdout sys))) = true
      /\ (serve sys port).2 = None).
Proof.
  unfold serve, TCPServer, server_bind, server_activate, print, stdout_write.
  destruct (os_socket sys); [| by left]. right.
  destruct (Z.leb_spec 0 port), (Z.leb_spec port 65535); cbn [andb].
  2,3,4: left; repeat split; (done || lia).
  right.
  destruct (os_bind sys port), (os_getsockname sys), (os_listen sys);
    cbn [andb fst snd app].
  2-8: left; repeat split; (done || lia).
  destruct (stdout sys), (os_write sys); cbn.
  all: (by left; repeat split; (done || lia))
       || (by right; repeat split; (done || lia)).
Qed.

Lemma overridden_lower ext :
  overridden (lower ext) = false -> overridden ext = false.
Proof.
  intros H. destruct (overridden ext) eqn:E; [| done].
  unfold overridden in E.
  apply orb_true_iff in E as [E | E];
    [apply orb_true_iff in E as [E | E] |].
  all: apply String.eqb_eq in E; subst; discriminate H.
Qed.
(** ** What a method leaves as it is *)

Lemma readline_empty limit s :
  0 < limit -> (readline limit s).1 = "" -> s = "".
Proof.
  intros Hl. destruct s as [|c s]; [done |]. simpl.
  destruct (Z.leb_spec limit 0); [lia |].
  destruct (ord c =? 10); [done |].
  by destruct (readline (limit - 1) s).
Qed.

Lemma copy_loop_version fuel n fsrc h :
  request_version (copy_loop fuel n fsrc h) = request_version h.
Proof.
  revert fsrc h. induction fuel as [|fuel IH]; intros fsrc h; [done |].
  simpl. destruct (String.eqb _ _); [done |]. by rewrite IH.
Qed.

Lemma send_file_version P fs h fpath :
  request_version (send_file P fs (CORSHandler P) h fpath).1
  = request_version h.
Proof.
  unfold send_file.
  destruct (endswith_slash fpath); [apply send_error_version |].
  destruct (open_rb P fs fpath) as [[contents mtime]|[]]; cbn [fst];
    try apply send_error_version; try done.
  destruct (not_modified P (headers h) mtime); cbn [fst].
  all: rewrite cors_end_headers_version, ?send_header_version.
  all: apply send_response_version.
Qed.

Lemma list_directory_version P fs h fpath :
  request_version (list_directory P fs (CORSHandler P) h fpath).1
  = request_version h.
Proof.
  unfold list_directory.
  destruct (listdir P fs fpath) as [names|[]]; cbn [fst];
    try apply send_error_version; try done.
  destruct (directory_listing P fs (path h) fpath names) as [encoded|];
    cbn [fst]; [| done].
  rewrite cors_end_headers_version, !send_header_version.
  apply send_response_version.
Qed.

Lemma send_head_version P fs h :
  request_version (send_head P fs (CORSHandler P) h).1 = request_version h.
Proof.
  unfold send_head.
  destruct (isdir P fs _); [| apply send_file_version].
  destruct (urlsplit P (path h)) as [[[[[scheme netloc] upath] query] frag]|];
    [| done].
  destruct (negb _).
  { cbn [fst]. rewrite cors_end_headers_version, !send_header_version.
    apply send_response_version. }
  repeat (destruct (isfile P fs _); [apply send_file_version |]).
  apply list_directory_version.
Qed.

Lemma call_method_version P fs h :
  request_version (call_method P fs (CORSHandler P) h).1 = request_version h.
Proof.
  unfold call_method, do_GET, do_HEAD.
  pose proof (send_head_version P fs h) as Hv.
  destruct (String.eqb _ "do_GET").
  { destruct (send_head _ _ _ _) as [h' [[f|]|e]]; cbn [fst] in *; try done.
    unfold copyfile. by rewrite copy_loop_version. }
  destruct (String.eqb _ "do_HEAD").
  { by destruct (send_head _ _ _ _) as [h' [f|e]]. }
  apply send_error_version.
Qed.

(** Every request is answered with a header block that ends with the two
    headers, unless the handler is left with the request version
    HTTP/0.9, or the connection brought no byte, or the method raised;
    in the last two cases nothing is written. *)
Lemma handle_one_request_head P fs rfile :
  let answer := handle_one_request P fs (CORSHandler P) setup rfile in
  request_version answer.1 <> "HTTP/0.9" ->
  has_cors_head (wfile answer.1)
  \/ (wfile answer.1 = [] /\ (rfile = "" \/ exists e, answer.2 = Some e)).
Proof.
  unfold handle_one_request.
  pose proof (readline_empty 65537 rfile) as Hempty.
  destruct (readline 65537 rfile) as [raw rest]. cbn [fst] in Hempty.
  destruct (65536 <? len raw).
  { intros _. left. apply send_error_head. by repeat split. }
  destruct (String.eqb_spec raw "") as [-> | Hne].
  { intros _. right. split; [done |]. left. apply Hempty; [lia | done]. }
  destruct (parse_request_cases P (CORSHandler P) setup raw rest)
    as [(Hb & _ & Hh)
       | [(Hb & h1 & code & message & explain & Hh & Hw & Hbuf)
         | (Hb & (Hw & Hbuf) & _ & _)]].
  all: destruct (parse_request P (CORSHandler P) setup raw rest) as [h b].
  all: cbn [fst snd] in *; subst b.
  - subst h. cbn [fst]. intros Hv. by contradiction Hv.
  - subst h. cbn [fst]. rewrite send_error_version. intros Hv. left.
    apply send_error_head. unfold fresh, is_http09.
    by rewrite String.eqb_neq.
  - rewrite call_method_version. intros Hv.
    assert (fresh h) as Hf
      by (unfold fresh, is_http09; by rewrite String.eqb_neq).
    destruct (call_method_head P fs h Hf) as [Hhead | (e & He & Hsame)];
      [by left |].
    right. rewrite Hsame. split; [done |]. right. by exists e.
Qed.

(** * The claims *)

(** The scenario of the specification: [model.glb] holds ten bytes; a GET
    of [/model.glb] is answered 200 with [Content-type: model/gltf-binary],
    the two added headers and those ten bytes. *)
Example scenario_model_glb :
  example_response (request_text "GET /model.glb HTTP/1.1" [])
  = [join ["HTTP/1.0 200 OK" +:+ CRLF;
           "Server: SimpleHTTP/0.6 Python/3.11.2" +:+ CRLF;
           "Date: Tue, 03 Nov 2026 11:08:56 GMT" +:+ CRLF;
           "Content-type: model/gltf-binary" +:+ CRLF;
           "Content-Length: 10" +:+ CRLF;
           "Last-Modified: Mon, 02 Nov 2026 09:00:00 GMT" +:+ CRLF;
           "Access-Control-Allow-Origin: *" +:+ CRLF;
           "Cache-Control: no-cache" +:+ CRLF;
           CRLF];
     "0123"; "4567"; "89"].
Proof. vm_compute. reflexivity. Qed.




(** Other ways a GET of an existing, readable file is not answered 200 with
    its bytes: an [If-Modified-Since] at or after the modification time is
    answered 304 without a body; a request line that names version 2.0 is
    answered by the page of error 505 alone; and a request with a hundred
    header lines is answered 431. *)
Example conditional_get_not_modified :
  example_response
    (request_text "GET /model.glb HTTP/1.1"
       ["If-Modified-Since: Fri, 01 Jan 2100 00:00:00 GMT"])
  = [join ["HTTP/1.0 304 Not Modified" +:+ CRLF;
           "Server: SimpleHTTP/0.6 Python/3.11.2" +:+ CRLF;
           "Date: Tue, 03 Nov 2026 11:08:56 GMT" +:+ CRLF;
           "Access-Control-Allow-Origin: *" +:+ CRLF;
           "Cache-Control: no-cache" +:+ CRLF;
           CRLF]].
Proof. vm_compute. reflexivity. Qed.

Example get_version_2_not_supported :
  example_response (request_text "GET /model.glb HTTP/2.0" [])
  = ["Error code: 505" +:+ LF
     +:+ "Message: Invalid HTTP version (2.0)." +:+ LF
     +:+ "Explanation: Cannot fulfill request." +:+ LF].
Proof. vm_compute. reflexivity. Qed.

Example get_with_too_many_headers :
  status_code
    (example_response
       (request_text "GET /model.glb HTTP/1.1" (repeat "X-Pad: 0" 100)))
  = Some "431".
Proof. vm_compute. reflexivity. Qed.

(** C2 (as stated) fails: a request line without a version ([GET
    /model.glb]) is an HTTP/0.9 request; the response is the bytes of the
    file only, with no status line and no header at all. *)
Lemma http09_response_has_no_headers :
  example_response (request_text "GET /model.glb" [])
  = ["0123"; "4567"; "89"]
  /\ ~ has_cors_head (example_response (request_text "GET /model.glb" [])).
Proof.
  split; [vm_compute; reflexivity |].
  intros (code & message & pre & rest & H).
  vm_compute in H. discriminate H.
Qed.

(** The same holds for the error pages that the request parser sends
    before it has accepted a version: a malformed version is answered by
    the page of error 400 alone. *)
Example bad_version_page_has_no_headers :
  example_response (request_text "GET / FOO" [])
  = ["Error code: 400" +:+ LF
     +:+ "Message: Bad request version ('FOO')." +:+ LF
     +:+ "Explanation: Bad request syntax or unsupported method." +:+ LF].
Proof. vm_compute. reflexivity. Qed.

(** C2 (amended): on every handler whose request version is not HTTP/0.9,
    [end_headers] writes the buffered header lines followed by
    [Access-Control-Allow-Origin: *], [Cache-Control: no-cache] and the
    blank line, in one write, and empties the buffer.  Whatever the bytes
    of a request, when the handler is left with a request version other
    than HTTP/0.9 the response starts with a header block that ends with
    these two headers and the blank line, unless nothing is written at
    all, which happens only when the connection brought no byte or when
    the method raised an exception; and so does every error response of
    [send_error] on such a handler. *)
Theorem cors_headers_end_every_header_block P fs :
  cors_tail
  = "Access-Control-Allow-Origin: *" +:+ CRLF
    +:+ "Cache-Control: no-cache" +:+ CRLF +:+ CRLF
  /\ (forall h, request_version h <> "HTTP/0.9" ->
        wfile (end_headers (CORSHandler P) h)
        = wfile h ++ [join (_headers_buffer h) +:+ cors_tail]
        /\ _headers_buffer (end_headers (CORSHandler P) h) = [])
  /\ (forall rfile,
        let answer := handle_one_request P fs (CORSHandler P) setup rfile in
        request_version answer.1 <> "HTTP/0.9" ->
        (exists code, cors_response code (wfile answer.1))
        \/ (wfile answer.1 = []
            /\ (rfile = "" \/ exists e, answer.2 = Some e)))
  /\ (forall h code message explain,
        request_version h <> "HTTP/0.9" ->
        wfile h = [] -> _headers_buffer h = [] ->
        cors_response code
          (wfile (send_error P (CORSHandler P) h code message explain))).
Proof.
  split; [reflexivity |]. split; [| split].
  - intros h Hv.
    assert (is_http09 h = false) as H
      by (unfold is_http09; by rewrite String.eqb_neq).
    by destruct (cors_end_headers P h H) as (Hw & Hb & _).
  - intros rfile. apply handle_one_request_head.
  - intros h code message explain Hv Hw Hb.
    apply send_error_response. unfold fresh, is_http09.
    by rewrite String.eqb_neq.
Qed.

Lemma cors_headers_end_every_header_block_witness :
  (exists code,
     cors_response code
       (example_response (request_text "POST /nope HTTP/1.1" [])))
  /\ cors_response 400
       (wfile (send_error example_platform example_cors
                 (example_handler (request_text "GET /x HTTP/1.1" []))
                 400 None None)).
Proof.
  destruct (cors_headers_end_every_header_block example_platform example_fs)
    as (_ & _ & Hrequest & Herror).
  split.
  - destruct (Hrequest (request_text "POST /nope HTTP/1.1" []))
      as [Hhead | (Hnothing & _)].
    + by vm_compute.
    + exact Hhead.
    + vm_compute in Hnothing. discriminate Hnothing.
  - apply Herror; [by vm_compute | reflexivity | reflexivity].
Defined.




(** C5 (as stated) fails: [.GLB] is not a key of the table, yet a file
    with that extension is given the type of the key [.glb]. *)
Lemma uppercase_extension_matches_lowercase_key :
  (splitext "/srv/model.GLB").2 = ".GLB"
  /\ extensions_map example_cors !! ".GLB" = None
  /\ extensions_map example_cors !! ".glb" = Some "model/gltf-binary"
  /\ guess_type example_platform example_cors "/srv/model.GLB"
     = "model/gltf-binary".
Proof. repeat split; vm_compute; reflexivity. Qed.

(** C5 (amended): the table is keyed by the extension with its leading dot
    and in exact case, and an entry under the exact extension always gives
    the type; an extension without such an entry is looked up once more
    in lower case, so an extension that is [.gltf], [.glb] or [.bin] up to
    case and is not itself a key of the platform's table gets the type of
    that entry. *)
Theorem extension_lookup_case P fpath :
  (forall t,
     extensions_map (CORSHandler P) !! (splitext fpath).2 = Some t ->
     guess_type P (CORSHandler P) fpath = t)
  /\ (forall key t,
        (key, t) ∈ overrides ->
        lower (splitext fpath).2 = key ->
        base_extensions_map P !! (splitext fpath).2 = None ->
        guess_type P (CORSHandler P) fpath = t).
Proof.
  split; [intros t Ht; by apply guess_type_exact |].
  intros key t Hin Hlower Hbase.
  pose proof (cors_map_override P key t Hin) as Hkey.
  destruct (overridden (splitext fpath).2) eqn:E.
  - apply guess_type_exact.
    assert ((splitext fpath).2 = key) as ->; [| done].
    rewrite <- Hlower. unfold overridden in E.
    apply orb_true_iff in E as [E | E];
      [apply orb_true_iff in E as [E | E] |].
    all: apply String.eqb_eq in E; by rewrite E.
  - apply overridden_false in E as (H1 & H2 & H3).
    apply guess_type_lower.
    + by rewrite cors_map_other.
    + by rewrite Hlower.
Qed.

Lemma extension_lookup_case_witness :
  guess_type example_platform example_cors "/srv/model.GLB"
  = "model/gltf-binary".
Proof.
  destruct (extension_lookup_case example_platform "/srv/model.GLB")
    as (_ & Hlower).
  apply (Hlower ".glb").
  - unfold overrides. apply list_elem_of_In. simpl. tauto.
  - reflexivity.
  - reflexivity.
Defined.



(** Three more requests for a missing path that are not answered 404.  On
    a request line without a version only the error page is sent: there
    is no status line to carry the 404.  With a hundred header lines the
    answer is 431.  And when the path holds a NUL character, [open()]
    raises [ValueError], which [send_head] does not catch: the method
    raises and nothing is sent. *)
Example http09_missing_path :
  example_response (request_text "GET /nope" [])
  = ["Error code: 404" +:+ LF +:+ "Message: File not found." +:+ LF
     +:+ "Explanation: Nothing matches the given URI." +:+ LF].
Proof. vm_compute. reflexivity. Qed.

Example missing_path_too_many_headers :
  status_code
    (example_response
       (request_text "GET /nope HTTP/1.1" (repeat "X-Pad: 0" 100)))
  = Some "431".
Proof. vm_compute. reflexivity. Qed.

Example nul_in_path_raises :
  let rfile :=
    request_text ("GET /a" +:+ String "000" "b" +:+ " HTTP/1.1") [] in
  example_fs (translate_path example_platform ("/a" +:+ String "000" "b"))
  = None
  /\ (handle_one_request example_platform example_fs example_cors setup
        rfile).2 = Some ValueError
  /\ example_response rfile = [].
Proof. repeat split; vm_compute; reflexivity. Qed.



(** C7 (as stated) fails: [.GLTF] is not one of the three keys, but the
    type of [scene.GLTF] is the one of the entry [.gltf], not what the
    platform gives (here nothing, hence the generic binary type). *)
Lemma uppercase_gltf_not_platform_default :
  overridden (splitext "/srv/scene.GLTF").2 = false
  /\ guess_type example_platform
       (SimpleHTTPRequestHandler example_platform) "/srv/scene.GLTF"
     = "application/octet-stream"
  /\ guess_type example_platform example_cors "/srv/scene.GLTF"
     = "model/gltf+json".
Proof. repeat split; vm_compute; reflexivity. Qed.

(** C7 (amended): when the extension of a served file, put in lower case,
    is none of [.gltf], [.glb], [.bin], its type is the one the handler of
    the platform gives without the three entries; and when neither the
    platform's table (under the extension or its lower case) nor
    [mimetypes] knows it, the type is [application/octet-stream]. *)
Theorem other_extensions_use_platform_default P fpath :
  overridden (lower (splitext fpath).2) = false ->
  guess_type P (CORSHandler P) fpath
  = guess_type P (SimpleHTTPRequestHandler P) fpath
  /\ (base_extensions_map P !! (splitext fpath).2 = None ->
      base_extensions_map P !! lower (splitext fpath).2 = None ->
      mimetypes_guess_type P fpath = None ->
      guess_type P (CORSHandler P) fpath = "application/octet-stream").
Proof.
  intros Hlower. pose proof (overridden_lower _ Hlower) as Hext.
  apply overridden_false in Hlower as (L1 & L2 & L3).
  apply overridden_false in Hext as (E1 & E2 & E3).
  unfold guess_type. destruct (splitext fpath) as [b ext]. cbn [snd] in *.
  rewrite !cors_map_other by done.
  split; [done |]. by intros -> -> ->.
Qed.

Lemma other_extensions_use_platform_default_witness :
  guess_type example_platform example_cors "/srv/notes.txt"
  = guess_type example_platform
      (SimpleHTTPRequestHandler example_platform) "/srv/notes.txt"
  /\ guess_type example_platform example_cors "/srv/notes.txt"
     = "application/octet-stream".
Proof.
  destruct (other_extensions_use_platform_default example_platform
              "/srv/notes.txt") as (Hsame & Hgeneric).
  - reflexivity.
  - split; [exact Hsame |].
    apply Hgeneric; reflexivity.
Defined.

(** C9: the table of the handler is the table of the platform with the
    three keys [.gltf], [.glb], [.bin] set; under every other extension
    its entry, or the absence of one, is the one of the platform's table. *)
Theorem extensions_map_frame P ext :
  ext <> ".gltf" -> ext <> ".glb" -> ext <> ".bin" ->
  extensions_map (CORSHandler P) !! ext = base_extensions_map P !! ext.
Proof. apply cors_map_other. Qed.

Lemma extensions_map_frame_witness :
  extensions_map (CORSHandler example_platform) !! ".gz"
  = base_extensions_map example_platform !! ".gz".
Proof.
  apply (extensions_map_frame example_platform ".gz"); discriminate.
Defined.

Lemma PORT_of_text max environ s :
  environ !! "PORT" = Some s -> PORT max environ = int_of_str max s.
Proof. intros H. unfold PORT, environ_get. by rewrite H. Qed.


(** C4: without [PORT] the server is started on port 10000 and its first
    call after the creation of the socket is the bind on port 10000; with
    [PORT=8080] the same holds for port 8080; with [PORT=notanumber] the
    run ends with [ValueError] before any socket call, and the default is
    not used.  (Only when the system does not create the socket is there
    no bind: the run then ends with [OSError] after that one call.) *)
Theorem port_from_environment sys environ :
  (environ !! "PORT" = None ->
     PORT (max_str_digits sys) environ = Ok 10000
     /\ main sys environ = serve sys 10000
     /\ ((main sys environ = ([Socket], Some OSError)
          /\ os_socket sys = false)
         \/ (os_socket sys = true
             /\ exists rest,
                  (main sys environ).1 = Socket :: Bind "" 10000 :: rest)))
  /\ (environ !! "PORT" = Some "8080" ->
        PORT (max_str_digits sys) environ = Ok 8080
        /\ main sys environ = serve sys 8080
        /\ ((main sys environ = ([Socket], Some OSError)
             /\ os_socket sys = false)
            \/ (os_socket sys = true
                /\ exists rest,
                     (main sys environ).1 = Socket :: Bind "" 8080 :: rest)))
  /\ (environ !! "PORT" = Some "notanumber" ->
        PORT (max_str_digits sys) environ = Raise ValueError
        /\ main sys environ = ([], Some ValueError)).
Proof.
  split; [| split].
  - intros H.
    assert (PORT (max_str_digits sys) environ = Ok 10000) as HP
      by (unfold PORT, environ_get; by rewrite H).
    unfold main. rewrite HP. repeat split.
    apply serve_binds_first. lia.
  - intros H.
    assert (PORT (max_str_digits sys) environ = Ok 8080) as HP
      by (by rewrite (PORT_of_text _ _ _ H)).
    unfold main. rewrite HP. repeat split.
    apply serve_binds_first. lia.
  - intros H.
    assert (PORT (max_str_digits sys) environ = Raise ValueError) as HP
      by (by rewrite (PORT_of_text _ _ _ H)).
    unfold main. by rewrite HP.
Qed.

Lemma port_from_environment_witness :
  main example_system ∅
  = ([Socket; Bind "" 10000; GetSockName; Listen;
      Stdout ("Eliza Town server running at http://localhost:10000" +:+ LF);
      ServeForever], None)
  /\ (exists rest,
        (main example_system {[ "PORT" := "8080" ]}).1
        = Socket :: Bind "" 8080 :: rest)
  /\ main example_system {[ "PORT" := "notanumber" ]}
     = ([], Some ValueError).
Proof.
  split; [| split].
  - destruct (port_from_environment example_system ∅) as (H & _ & _).
    destruct H as (_ & -> & _); reflexivity.
  - destruct (port_from_environment example_system {[ "PORT" := "8080" ]})
      as (_ & H & _).
    destruct H as (_ & _ & [[_ Hno] | [_ Hbind]]);
      [reflexivity | discriminate Hno | exact Hbind].
  - destruct (port_from_environment example_system
                {[ "PORT" := "notanumber" ]}) as (_ & _ & H).
    destruct H as (_ & ->); reflexivity.
Defined.




(** C10 (as stated) fails: with the interpreter's default limit of 4300
    digits, a [PORT] of 4301 decimal digits is refused by [int()] and the
    run ends with [ValueError]. *)
Lemma port_rejects_long_decimal :
  string_forallb is_digit (repeat_char "1" 4301) = true
  /\ PORT (max_str_digits example_system)
       {[ "PORT" := repeat_char "1" 4301 ]}
     = Raise ValueError
  /\ main example_system {[ "PORT" := repeat_char "1" 4301 ]}
     = ([], Some ValueError).
Proof. repeat split; vm_compute; reflexivity. Qed.

(** C10 (amended): a [PORT] made of white space, an optional sign, decimal
    digits and white space is accepted and its value is the port the
    server is started with, provided the number of digits is within the
    interpreter's limit for [int()] (at most 640 digits, or at most
    [sys.get_int_max_str_digits()], 4300 by default, or that limit
    switched off); and the run ends with [ValueError] exactly when [int()]
    refuses the text. *)
Theorem port_accepts_decimal_text sys environ s :
  environ !! "PORT" = Some s ->
  (forall ws1 sign ds ws2,
     s = ws1 +:+ sign +:+ ds +:+ ws2 ->
     string_forallb is_space ws1 = true ->
     sign = "" \/ sign = "+" \/ sign = "-" ->
     ds <> "" -> string_forallb is_digit ds = true ->
     string_forallb is_space ws2 = true ->
     (String.length ds <= 640 \/ max_str_digits sys = 0
      \/ String.length ds <= max_str_digits sys)%nat ->
     PORT (max_str_digits sys) environ
     = Ok (sign_value sign * decimal_value ds)
     /\ main sys environ = serve sys (sign_value sign * decimal_value ds))
  /\ (main sys environ = ([], Some ValueError)
      <-> int_of_str (max_str_digits sys) s = Raise ValueError).
Proof.
  intros Henv. pose proof (PORT_of_text (max_str_digits sys) _ _ Henv) as HP.
  split.
  - intros ws1 sign ds ws2 -> Hws1 Hsign Hne Hds Hws2 Hlimit.
    rewrite (int_of_str_decimal _ ws1 sign ds ws2) in HP by done.
    unfold main. by rewrite HP.
  - unfold main. rewrite HP.
    destruct (int_of_str (max_str_digits sys) s) as [port | e] eqn:E.
    + split; [| done]. intros H.
      pose proof (serve_no_value_error sys port) as Hno.
      by rewrite H in Hno.
    + by rewrite (int_of_str_raises _ _ _ E).
Qed.

Lemma port_accepts_decimal_text_witness :
  PORT (max_str_digits example_system) {[ "PORT" := " +8080 " ]} = Ok 8080
  /\ main example_system {[ "PORT" := " +8080 " ]}
     = serve example_system 8080.
Proof.
  destruct (port_accepts_decimal_text example_system
              {[ "PORT" := " +8080 " ]} " +8080 ") as (Haccept & _).
  - reflexivity.
  - apply (Haccept " " "+" "8080" " ").
    + reflexivity.
    + reflexivity.
    + right. left. reflexivity.
    + discriminate.
    + reflexivity.
    + reflexivity.
    + left. simpl. lia.
Defined.


(** * Further properties *)

(** ** Start-up *)

Lemma PORT_raises max environ e :
  PORT max environ = Raise e -> e = ValueError.
Proof.
  unfold PORT, environ_get. destruct (environ !! "PORT") as [s|]; simpl.
  - apply int_of_str_raises.
  - discriminate.
Qed.

(** X1: how a run that does not start ends.  It ends with [ValueError],
    before any call to the system, exactly when [int()] refuses the value
    of [PORT].  It ends with [OverflowError] exactly when the socket was
    created and the port is outside 0..65535: the socket is closed again
    and no bind reaches the system.  It ends with [OSError] exactly when
    the system refuses one of the calls: the creation of the socket (no
    bind is tried then), the bind, [getsockname], [listen], or the write
    of the banner on a standard output that writes at once; the socket,
    if created, is closed again.  No other exception ends it. *)
Theorem startup_failures sys environ :
  ((main sys environ).2 = Some ValueError
   <-> PORT (max_str_digits sys) environ = Raise ValueError)
  /\ (PORT (max_str_digits sys) environ = Raise ValueError ->
      main sys environ = ([], Some ValueError))
  /\ ((main sys environ).2 = Some OverflowError
      <-> exists port, PORT (max_str_digits sys) environ = Ok port
                       /\ os_socket sys = true /\ ~ 0 <= port <= 65535)
  /\ (forall port, PORT (max_str_digits sys) environ = Ok port ->
        os_socket sys = true -> ~ 0 <= port <= 65535 ->
        main sys environ = ([Socket; Close], Some OverflowError))
  /\ ((main sys environ).2 = Some OSError
      <-> exists port,
            PORT (max_str_digits sys) environ = Ok port
            /\ (os_socket sys = false
                \/ (0 <= port <= 65535
                    /\ os_bind sys port && os_getsockname sys
                       && os_listen sys
                       && (os_write sys || negb (writes_at_once (stdout sys)))
                       = false)))
  /\ (forall port, PORT (max_str_digits sys) environ = Ok port ->
        os_socket sys = false -> main sys environ = ([Socket], Some OSError))
  /\ (forall port, PORT (max_str_digits sys) environ = Ok port ->
        os_socket sys = true -> 0 <= port <= 65535 ->
        os_bind sys port = false ->
        main sys environ = ([Socket; Bind "" port; Close], Some OSError))
  /\ (forall e, (main sys environ).2 = Some e ->
        e = ValueError \/ e = OverflowError \/ e = OSError).
Proof.
  unfold main.
  destruct (PORT (max_str_digits sys) environ) as [port | e] eqn:HP.
  2:{ pose proof (PORT_raises _ _ _ HP) as ->. cbn.
      split; [done |]. split; [done |].
      split; [split; [done | by intros (q & [=] & _)] |].
      split; [by intros q [=] |].
      split; [split; [done | by intros (q & [=] & _)] |].
      split; [by intros q [=] |]. split; [by intros q [=] |].
      intros e [= <-]. tauto. }
  pose proof (serve_no_value_error sys port) as Hnv.
  split; [split; [intros H; by rewrite H in Hnv | intros [=]] |].
  split; [intros [=] |].
  split.
  { split.
    - intros H. exists port. split; [done |].
      destruct (serve_cases sys port)
        as [(Hs & He) | [(Hs & Hr & He) | [(Hs & Hr & Hall & He)
                                          | (Hs & Hr & Hall & He)]]];
        rewrite He in H; by cbn in H.
    - intros (q & [= <-] & Hs' & Hr').
      destruct (serve_cases sys port)
        as [(Hs & He) | [(Hs & Hr & He) | [(Hs & Hr & Hall & He)
                                          | (Hs & Hr & Hall & He)]]];
        try congruence; try lia.
      by rewrite He. }
  split.
  { intros q [= <-] Hs' Hr'.
    destruct (serve_cases sys port)
      as [(Hs & He) | [(Hs & Hr & He) | [(Hs & Hr & Hall & He)
                                        | (Hs & Hr & Hall & He)]]];
      try congruence; lia. }
  split.
  { split.
    - intros H. exists port. split; [done |].
      destruct (serve_cases sys port)
        as [(Hs & He) | [(Hs & Hr & He) | [(Hs & Hr & Hall & He)
                                          | (Hs & Hr & Hall & He)]]];
        rewrite He in H; try (by cbn in H); [by left | by right].
    - intros (q & [= <-] & Hwhy).
      destruct (serve_cases sys port)
        as [(Hs & He) | [(Hs & Hr & He) | [(Hs & Hr & Hall & He)
                                          | (Hs & Hr & Hall & He)]]].
      + by rewrite He.
      + destruct Hwhy as [? | [? ?]]; [congruence | lia].
      + done.
      + destruct Hwhy as [? | [? ?]]; congruence. }
  split.
  { intros q [= <-] Hs'.
    destruct (serve_cases sys port)
      as [(Hs & He) | [(Hs & Hr & He) | [(Hs & Hr & Hall & He)
                                        | (Hs & Hr & Hall & He)]]];
      congruence. }
  split.
  { intros q [= <-] Hs Hr Hb.
    unfold serve, TCPServer, server_bind. rewrite Hs, Hb.
    destruct (Z.leb_spec 0 port), (Z.leb_spec port 65535); try lia.
    reflexivity. }
  intros e He.
  destruct (serve_cases sys port)
    as [(Hs & H) | [(Hs & Hr & H) | [(Hs & Hr & Hall & H)
                                    | (Hs & Hr & Hall & H)]]];
    rewrite H in He; cbn in He; try discriminate;
    injection He as <-; tauto.
Qed.

Lemma startup_failures_witness :
  main example_system {[ "PORT" := "70000" ]}
  = ([Socket; Close], Some OverflowError)
  /\ main refusing_system {[ "PORT" := "8080" ]}
     = ([Socket; Bind "" 8080; Close], Some OSError)
  /\ main example_system {[ "PORT" := "http" ]} = ([], Some ValueError).
Proof.
  split; [| split].
  - destruct (startup_failures example_system {[ "PORT" := "70000" ]})
      as (_ & _ & _ & Hrange & _).
    apply (Hrange 70000); [reflexivity | reflexivity | lia].
  - destruct (startup_failures refusing_system {[ "PORT" := "8080" ]})
      as (_ & _ & _ & _ & _ & _ & Hbind & _).
    apply (Hbind 8080); [reflexivity | reflexivity | lia | reflexivity].
  - destruct (startup_failures example_system {[ "PORT" := "http" ]})
      as (_ & Hvalue & _).
    apply Hvalue. reflexivity.
Defined.

(** X2: the banner is printed only by a run whose server socket is bound
    and listening: if a text is written to standard output, or left in
    the buffer of [sys.stdout], the constructor of the server has
    succeeded on the port that [PORT] resolves to, its four calls are the
    start of the run, and the text is the banner for that port with its
    line feed, or, on a standard output without buffer, the banner or the
    line feed alone. *)
Theorem banner_only_when_bound sys environ text :
  Stdout text ∈ (main sys environ).1 \/ Buffered text ∈ (main sys environ).1 ->
  exists port rest,
    PORT (max_str_digits sys) environ = Ok port
    /\ TCPServer sys "" port = (started port, None)
    /\ (main sys environ).1 = started port ++ rest
    /\ (text = banner port +:+ LF \/ text = banner port \/ text = LF).
Proof.
  unfold main.
  destruct (PORT (max_str_digits sys) environ) as [port | e] eqn:HP; cbn.
  2:{ intros [H | H]; by apply elem_of_nil in H. }
  unfold serve.
  destruct (TCPServer sys "" port) as [steps [e|]] eqn:Hserver.
  { intros Hin. exfalso. revert Hserver Hin.
    unfold TCPServer, server_bind, server_activate.
    destruct (os_socket sys), ((0 <=? port) && (port <=? 65535)),
      (os_bind sys port), (os_getsockname sys), (os_listen sys).
    all: intros [= <- <-]; cbn.
    all: rewrite ?elem_of_cons, ?elem_of_nil; intuition discriminate. }
  assert ((TCPServer sys "" port).2 = None) as Hnone by (by rewrite Hserver).
  rewrite (TCPServer_started sys port Hnone) in Hserver.
  injection Hserver as <-.
  intros Hin.
  exists port.
  assert (exists rest,
            (let '(printed, raised) := print sys (banner port) in
             match raised with
             | Some e => (started port ++ printed ++ [Close], Some e)
             | None => (started port ++ printed ++ [ServeForever], None)
             end).1 = started port ++ rest
            /\ forall t, (Stdout t ∈ rest \/ Buffered t ∈ rest) ->
                 t = banner port +:+ LF \/ t = banner port \/ t = LF)
    as (rest & Hrest & Htexts).
  { unfold print, stdout_write.
    destruct (stdout sys), (os_write sys); cbn; eexists; (split; [done |]).
    all: intros t; rewrite ?elem_of_cons, ?elem_of_nil.
    all: intros [Ht | Ht];
      repeat (destruct Ht as [Ht | Ht]; try discriminate; try done).
    all: injection Ht as ->; tauto. }
  destruct (print sys (banner port)) as [printed [e|]]; cbn [fst] in *.
  all: exists rest; split; [done |].
  all: split; [by apply TCPServer_started |]; split; [exact Hrest |].
  all: apply Htexts; rewrite Hrest in Hin.
  all: rewrite !elem_of_app in Hin; unfold started in Hin.
  all: rewrite !elem_of_cons, !elem_of_nil in Hin.
  all: intuition discriminate.
Qed.

Lemma banner_only_when_bound_witness :
  exists port rest,
    PORT (max_str_digits piped_system) {[ "PORT" := "8080" ]} = Ok port
    /\ TCPServer piped_system "" port = (started port, None)
    /\ (main piped_system {[ "PORT" := "8080" ]}).1 = started port ++ rest
    /\ ("Eliza Town server running at http://localhost:8080" +:+ LF
        = banner port +:+ LF
        \/ "Eliza Town server running at http://localhost:8080" +:+ LF
           = banner port
        \/ "Eliza Town server running at http://localhost:8080" +:+ LF = LF).
Proof.
  apply (banner_only_when_bound piped_system {[ "PORT" := "8080" ]}).
  right. vm_compute. apply list_elem_of_In. simpl. tauto.
Defined.

Lemma int_of_str_blank max ws :
  string_forallb is_space ws = true -> int_of_str max ws = Raise ValueError.
Proof.
  intros Hws. unfold int_of_str.
  rewrite transform_text
    by (apply (string_forallb_impl is_space); [| done];
        intros c ->; apply orb_true_r).
  unfold PyLong_FromString.
  by rewrite (skip_space_all _ (to_ascii_space_spaces ws Hws)).
Qed.

(** X3: a [PORT] that is set but empty, or holds white space only, is
    refused: the run ends with [ValueError] before any socket call, and the
    default port is not used. *)
Theorem blank_port_rejected sys environ ws :
  environ !! "PORT" = Some ws ->
  string_forallb is_space ws = true ->
  main sys environ = ([], Some ValueError).
Proof.
  intros Henv Hws. unfold main.
  by rewrite (PORT_of_text _ _ _ Henv), (int_of_str_blank _ _ Hws).
Qed.

Lemma blank_port_rejected_witness :
  main example_system {[ "PORT" := "" ]} = ([], Some ValueError)
  /\ main example_system {[ "PORT" := "  " ]} = ([], Some ValueError).
Proof.
  split.
  - apply (blank_port_rejected example_system {[ "PORT" := "" ]} "");
      reflexivity.
  - apply (blank_port_rejected example_system {[ "PORT" := "  " ]} "  ");
      reflexivity.
Defined.

(** What [int()] accepts is white space, a sign, digits and underscores
    from end to end. *)
Lemma skip_space_split s :
  exists ws, s = ws +:+ skip_space s /\ string_forallb Py_ISSPACE ws = true.
Proof.
  induction s as [|c s (ws & Hs & Hws)]; [by exists "" |].
  simpl. destruct (Py_ISSPACE c) eqn:Hc.
  - exists (String c ws). rewrite append_cons, <- Hs. simpl.
    by rewrite Hc, Hws.
  - by exists "".
Qed.

Lemma skip_space_empty s :
  skip_space s = "" -> string_forallb Py_ISSPACE s = true.
Proof.
  intros H. destruct (skip_space_split s) as (ws & Hs & Hws).
  rewrite H, append_empty_r in Hs. by subst.
Qed.

Lemma scan_digits_split s prev digits acc prev' digits' acc' rest :
  scan_digits s prev digits acc = Some (prev', digits', acc', rest) ->
  exists b,
    s = b +:+ rest
    /\ string_forallb (fun c => is_digit c || is_underscore c) b = true.
Proof.
  revert prev digits acc. induction s as [|c s IH]; intros prev digits acc.
  - simpl. intros [= <- <- <- <-]. by exists "".
  - simpl. destruct (is_underscore c) eqn:Hu.
    + destruct (is_underscore prev); [done |].
      intros H. destruct (IH _ _ _ H) as (b & -> & Hb).
      exists (String c b). split; [done |]. simpl.
      by rewrite Hu, orb_true_r, Hb.
    + destruct (Py_UNICODE_TODECIMAL c) as [d|] eqn:Hd.
      * intros H. destruct (IH _ _ _ H) as (b & -> & Hb).
        exists (String c b). split; [done |]. simpl. rewrite Hb.
        assert (is_digit c = true) as ->; [| done].
        unfold Py_UNICODE_TODECIMAL in Hd. unfold is_digit.
        by destruct (in_range 48 57 c).
      * intros [= <- <- <- <-]. by exists "".
Qed.

Lemma PyLong_FromString_chars max s v :
  PyLong_FromString max s = Ok v ->
  string_forallb ascii_port_char s = true.
Proof.
  unfold PyLong_FromString.
  destruct (skip_space_split s) as (ws1 & Hs & Hws1).
  destruct (read_sign (skip_space s)) as [sign s2] eqn:Hsign.
  destruct (starts_with_underscore s2); [done |].
  destruct (scan_digits s2 _ _ _) as [[[[prev digits] acc] rest]|] eqn:Hscan;
    [| done].
  destruct (is_underscore prev); [done |].
  destruct (exceeds_limit max digits); [done |].
  destruct (digits =? 0)%nat; [done |].
  destruct (skip_space rest) eqn:Hrest; [| done]. intros _.
  destruct (scan_digits_split _ _ _ _ _ _ _ _ Hscan) as (b & -> & Hb).
  apply skip_space_empty in Hrest.
  assert (string_forallb ascii_port_char (b +:+ rest) = true) as Hbody.
  { rewrite string_forallb_app. apply andb_true_iff. split.
    - revert Hb. apply string_forallb_impl. intros c Hc.
      unfold ascii_port_char. apply orb_true_iff in Hc as [-> | ->];
        by rewrite ?orb_true_r.
    - revert Hrest. apply string_forallb_impl. intros c Hc.
      unfold ascii_port_char. by rewrite Hc. }
  rewrite Hs, string_forallb_app. apply andb_true_iff. split.
  { revert Hws1. apply string_forallb_impl. intros c Hc.
    unfold ascii_port_char. by rewrite Hc. }
  unfold read_sign in Hsign.
  destruct (skip_space s) as [|c s']; [done |].
  destruct (Z.eqb_spec (ord c) 43) as [E43 | _].
  { injection Hsign as _ ->. simpl. rewrite Hbody, andb_true_r.
    unfold ascii_port_char. rewrite E43. simpl. by rewrite orb_true_r. }
  destruct (Z.eqb_spec (ord c) 45) as [E45 | _].
  { injection Hsign as _ ->. simpl. rewrite Hbody, andb_true_r.
    unfold ascii_port_char. rewrite E45. simpl. by rewrite !orb_true_r. }
  injection Hsign as _ Hs2. by rewrite Hs2.
Qed.

Lemma transform_chars_port s :
  string_forallb ascii_port_char (transform_chars s) = true ->
  string_forallb port_char s = true.
Proof.
  induction s as [|c s IH]; [done |]. simpl.
  destruct (Z.ltb_spec (ord c) 127).
  - simpl. intros [Hc Hs]%andb_true_iff. rewrite (IH Hs), andb_true_r.
    unfold port_char, ascii_port_char, is_space in *.
    apply orb_true_iff in Hc as [Hc | ->]; [| by rewrite orb_true_r].
    apply orb_true_iff in Hc as [Hc | ->]; [| by rewrite !orb_true_r].
    apply orb_true_iff in Hc as [Hc | ->]; [| by rewrite !orb_true_r].
    apply orb_true_iff in Hc as [-> | ->]; [done | by rewrite !orb_true_r].
  - destruct (Py_UNICODE_ISSPACE c) eqn:Hsp.
    + simpl. intros Hs. rewrite (IH Hs), andb_true_r.
      assert (is_space c = true) as Hc
        by (unfold is_space, Py_UNICODE_ISSPACE in *; char_cases).
      unfold port_char. by rewrite Hc.
    + assert (Py_UNICODE_TODECIMAL c = None) as -> by char_cases.
      done.
Qed.

Lemma int_of_str_chars max s v :
  int_of_str max s = Ok v -> string_forallb port_char s = true.
Proof.
  unfold int_of_str, transform_decimal_and_space. intros H.
  apply PyLong_FromString_chars in H. destruct (is_ascii s).
  - revert H. apply string_forallb_impl. intros c Hc.
    unfold port_char, ascii_port_char, is_space in *.
    apply orb_true_iff in Hc as [Hc | ->]; [| by rewrite orb_true_r].
    apply orb_true_iff in Hc as [Hc | ->]; [| by rewrite !orb_true_r].
    apply orb_true_iff in Hc as [Hc | ->]; [| by rewrite !orb_true_r].
    apply orb_true_iff in Hc as [-> | ->]; [done | by rewrite !orb_true_r].
  - by apply transform_chars_port.
Qed.

(** X4: a [PORT] that holds any character other than white space, a sign,
    a decimal digit or an underscore (a port name, a hexadecimal or
    fractional number, a trailing unit) is refused: the run ends with
    [ValueError] before any socket call. *)
Theorem port_with_other_characters_rejected sys environ s :
  environ !! "PORT" = Some s ->
  string_forallb port_char s = false ->
  main sys environ = ([], Some ValueError).
Proof.
  intros Henv Hbad. unfold main. rewrite (PORT_of_text _ _ _ Henv).
  destruct (int_of_str (max_str_digits sys) s) as [v | e] eqn:E.
  - apply int_of_str_chars in E. congruence.
  - by rewrite (int_of_str_raises _ _ _ E).
Qed.

Lemma port_with_other_characters_rejected_witness :
  main example_system {[ "PORT" := "0x1F90" ]} = ([], Some ValueError)
  /\ main example_system {[ "PORT" := "8080/tcp" ]} = ([], Some ValueError).
Proof.
  split.
  - apply (port_with_other_characters_rejected example_system
             {[ "PORT" := "0x1F90" ]} "0x1F90"); reflexivity.
  - apply (port_with_other_characters_rejected example_system
             {[ "PORT" := "8080/tcp" ]} "8080/tcp"); reflexivity.
Defined.

(** ** The table and [end_headers] *)

(** The keys of the handler's table are the keys of the platform's table
    and the three extensions. *)
Lemma extensions_map_keys P :
  dom (extensions_map (CORSHandler P))
  = {[ ".gltf"; ".glb"; ".bin" ]} ∪ dom (base_extensions_map P).
Proof.
  unfold CORSHandler, SimpleHTTPRequestHandler. simpl.
  rewrite !dom_insert_L. apply set_eq. intros ext.
  rewrite !elem_of_union. tauto.
Qed.

Lemma send_header_other h keyword value :
  String.eqb (lower keyword) "connection" = false ->
  send_header h keyword value
  = if is_http09 h then h
    else with_buffer h (_headers_buffer h ++ [header_line keyword value]).
Proof. intros H. unfold send_header. by rewrite H. Qed.

Lemma send_header_other_close h keyword value :
  String.eqb (lower keyword) "connection" = false ->
  close_connection (send_header h keyword value) = close_connection h.
Proof.
  intros H. rewrite (send_header_other _ _ _ H). by destruct (is_http09 h).
Qed.

Lemma cors_end_headers_id P h :
  request_version h = "HTTP/0.9" -> end_headers (CORSHandler P) h = h.
Proof.
  intros Hv.
  assert (is_http09 h = true) as H09
    by (unfold is_http09; by rewrite Hv).
  unfold CORSHandler, SimpleHTTPRequestHandler. simpl.
  rewrite (send_header_other h "Access-Control-Allow-Origin") by reflexivity.
  rewrite H09.
  rewrite (send_header_other h "Cache-Control") by reflexivity.
  rewrite H09. unfold base_end_headers. by rewrite H09.
Qed.

Lemma cors_end_headers_frame P h :
  close_connection (end_headers (CORSHandler P) h) = close_connection h
  /\ command (end_headers (CORSHandler P) h) = command h
  /\ path (end_headers (CORSHandler P) h) = path h
  /\ headers (end_headers (CORSHandler P) h) = headers h
  /\ request_version (end_headers (CORSHandler P) h) = request_version h.
Proof.
  destruct (is_http09 h) eqn:H09.
  - apply String.eqb_eq in H09. by rewrite (cors_end_headers_id P h H09).
  - unfold CORSHandler, SimpleHTTPRequestHandler. simpl.
    rewrite (send_header_other h "Access-Control-Allow-Origin")
      by reflexivity.
    rewrite H09.
    rewrite (send_header_other _ "Cache-Control") by reflexivity.
    unfold base_end_headers, is_http09 in *. simpl. rewrite H09. simpl.
    by rewrite H09.
Qed.

(** X5: on an HTTP/0.9 request, [end_headers] of [CORSHandler] leaves the
    handler as it is: nothing is written and nothing is buffered. *)
Theorem end_headers_http09 P h :
  request_version h = "HTTP/0.9" -> end_headers (CORSHandler P) h = h.
Proof. apply cors_end_headers_id. Qed.

Lemma end_headers_http09_witness :
  end_headers (CORSHandler example_platform)
    (example_handler (request_text "GET /model.glb" []))
  = example_handler (request_text "GET /model.glb" []).
Proof. apply end_headers_http09. reflexivity. Defined.

(** X6: [end_headers] of [CORSHandler] changes only the header buffer and
    what was written: the connection flag, the command, the path, the
    request headers and the request version stay as they are. *)
Theorem end_headers_keeps_request P h :
  close_connection (end_headers (CORSHandler P) h) = close_connection h
  /\ command (end_headers (CORSHandler P) h) = command h
  /\ path (end_headers (CORSHandler P) h) = path h
  /\ headers (end_headers (CORSHandler P) h) = headers h
  /\ request_version (end_headers (CORSHandler P) h) = request_version h.
Proof. apply cors_end_headers_frame. Qed.

(** ** GET and HEAD *)









(** ** Error responses *)

Ltac normalise_block :=
  unfold cors_tail; cbn [join foldr app];
  rewrite ?append_empty_r, ?append_assoc.

Lemma send_error_exact P h code message explain :
  fresh h ->
  200 <= code -> code <> 204 -> code <> 205 -> code <> 304 ->
  let reason := error_reason P code message in
  let page :=
    error_message P code reason (error_explanation P code explain) in
  wfile (send_error P (CORSHandler P) h code message explain)
  = error_head P code reason page
    :: (if negb (bool_decide (command h = Some "HEAD"))
           && negb (String.eqb page "")
        then [page] else []).
Proof.
  intros Hf Hcode H204 H205 H304. pose proof Hf as (H0 & _ & _).
  unfold send_error, error_reason, error_explanation, error_head.
  destruct (responses P code) as [[short long]|].
  all: cbn zeta.
  all: assert ((200 <=? code)
               && negb ((code =? 204) || (code =? 205) || (code =? 304))
               = true) as ->
         by (destruct (Z.leb_spec 200 code), (Z.eqb_spec code 204),
               (Z.eqb_spec code 205), (Z.eqb_spec code 304);
             simpl; (done || lia)).
  all: headers_sent Hf H0.
  all: destruct (_ && _); unfold write; cbn [wfile]; rewrite ?Hw.
  all: normalise_block; reflexivity.
Qed.

(** X8: an error response of [send_error] that carries a page (a code from
    200 on other than 204, 205 and 304), on a request that is not
    HTTP/0.9: the header block is the status line with the reason, [Server],
    [Date], [Connection: close], the content type of the page, a
    [Content-Length] equal to the length of the page and the two added
    headers; the page follows, unless the request is HEAD or the page is
    empty. *)
Theorem error_response_shape P h code message explain :
  request_version h <> "HTTP/0.9" ->
  wfile h = [] -> _headers_buffer h = [] ->
  200 <= code -> code <> 204 -> code <> 205 -> code <> 304 ->
  let reason := error_reason P code message in
  let page :=
    error_message P code reason (error_explanation P code explain) in
  let response :=
    wfile (send_error P (CORSHandler P) h code message explain) in
  head response = Some (error_head P code reason page)
  /\ body response
     = if bool_decide (command h = Some "HEAD") then "" else page.
Proof.
  intros Hv Hw Hb Hcode H204 H205 H304 reason page response.
  assert (fresh h) as Hf
    by (unfold fresh, is_http09; by rewrite String.eqb_neq).
  subst response reason page.
  rewrite (send_error_exact P h code message explain Hf Hcode H204 H205 H304).
  split; [done |]. unfold body. cbn [tail].
  destruct (bool_decide (command h = Some "HEAD")); [done |].
  cbn [negb andb].
  destruct (String.eqb_spec
              (error_message P code (error_reason P code message)
                 (error_explanation P code explain)) "") as [-> | _].
  - done.
  - cbn [negb join foldr]. apply append_empty_r.
Qed.

Lemma error_response_shape_witness :
  let response :=
    wfile (send_error example_platform example_cors
             (example_handler (request_text "GET /x HTTP/1.1" []))
             404 None None) in
  head response
  = Some (error_head example_platform 404 "Not Found"
            (error_message example_platform 404 "Not Found"
               "Nothing matches the given URI"))
  /\ body response
     = error_message example_platform 404 "Not Found"
         "Nothing matches the given URI".
Proof.
  apply (error_response_shape example_platform
           (example_handler (request_text "GET /x HTTP/1.1" []))
           404 None None);
    (discriminate || reflexivity || lia).
Defined.

Lemma send_header_connection_close h :
  close_connection (send_header h "Connection" "close") = true.
Proof. unfold send_header. by destruct (is_http09 h). Qed.

Lemma send_error_close P h code message explain :
  close_connection (send_error P (CORSHandler P) h code message explain)
  = true.
Proof.
  unfold send_error. destruct (responses P code) as [[short long]|].
  all: cbn zeta.
  all: destruct (_ && _);
    [destruct (_ && _); unfold write; cbn [close_connection] |].
  all: rewrite (proj1 (cors_end_headers_frame P _)).
  all: rewrite ?send_header_other_close by reflexivity.
  all: apply send_header_connection_close.
Qed.

(** X9: after [send_error], whatever the code and the request version,
    the connection is marked to be closed. *)
Theorem error_closes_connection P h code message explain :
  close_connection (send_error P (CORSHandler P) h code message explain)
  = true.
Proof. apply send_error_close. Qed.


(** ** Errors on HTTP/0.9 *)

Lemma send_header_silent h keyword value :
  is_http09 h = true ->
  wfile (send_header h keyword value) = wfile h
  /\ _headers_buffer (send_header h keyword value) = _headers_buffer h
  /\ command (send_header h keyword value) = command h
  /\ is_http09 (send_header h keyword value) = true.
Proof.
  intros H. unfold send_header. rewrite H.
  repeat destruct (String.eqb _ _); by repeat split.
Qed.

Lemma send_response_silent P h code message :
  is_http09 h = true ->
  wfile (send_response P h code message) = wfile h
  /\ _headers_buffer (send_response P h code message) = _headers_buffer h
  /\ command (send_response P h code message) = command h
  /\ is_http09 (send_response P h code message) = true.
Proof.
  intros H. unfold send_response.
  assert (send_response_only P h code message = h) as ->
    by (unfold send_response_only; by rewrite H).
  destruct (send_header_silent h "Server" (version_string P) H)
    as (W1 & B1 & C1 & H1).
  destruct (send_header_silent _ "Date" (date_time_string P None) H1)
    as (W2 & B2 & C2 & H2).
  repeat split; congruence.
Qed.

Lemma send_error_silent P h code message explain :
  request_version h = "HTTP/0.9" ->
  let page :=
    error_message P code (error_reason P code message)
      (error_explanation P code explain) in
  wfile (send_error P (CORSHandler P) h code message explain)
  = wfile h
    ++ (if (200 <=? code)
           && negb ((code =? 204) || (code =? 205) || (code =? 304))
           && negb (bool_decide (command h = Some "HEAD"))
           && negb (String.eqb page "")
        then [page] else [])
  /\ _headers_buffer (send_error P (CORSHandler P) h code message explain)
     = _headers_buffer h.
Proof.
  intros Hv page. subst page.
  assert (is_http09 h = true) as H09 by (unfold is_http09; by rewrite Hv).
  unfold send_error, error_reason, error_explanation.
  destruct (responses P code) as [[short long]|]; cbn zeta.
  all: set (reason := default _ message); set (expl := default _ explain).
  all: destruct (send_response_silent P h code (Some reason) H09)
         as (W1 & B1 & C1 & H1).
  all: destruct (send_header_silent _ "Connection" "close" H1)
         as (W2 & B2 & C2 & H2).
  all: destruct ((200 <=? code)
                 && negb ((code =? 204) || (code =? 205) || (code =? 304))).
  all: cbn [andb].
  all: try (rewrite cors_end_headers_id by (by apply String.eqb_eq);
            rewrite app_nil_r; split; congruence).
  all: destruct (send_header_silent _ "Content-Type" error_content_type H2)
         as (W3 & B3 & C3 & H3).
  all: match goal with
       | |- context [send_header _ "Content-Length" ?v] =>
           destruct (send_header_silent _ "Content-Length" v H3)
             as (W4 & B4 & C4 & H4)
       end.
  all: rewrite cors_end_headers_id by (by apply String.eqb_eq).
  all: rewrite C4, C3, C2, C1.
  all: destruct (negb (bool_decide (command h = Some "HEAD"))
                 && negb (String.eqb (error_message P code reason expl) "")).
  all: unfold write; cbn [wfile _headers_buffer]; rewrite ?app_nil_r.
  all: split; congruence.
Qed.



Lemma handle_raised P fs rfile h h' e :
  accepted P rfile h ->
  command h = Some "GET" \/ command h = Some "HEAD" ->
  send_head P fs (CORSHandler P) h = (h', Raise e) ->
  handle_one_request P fs (CORSHandler P) setup rfile = (h', Some e).
Proof.
  intros Ha Hcmd Hsend. rewrite (accepted_handle P fs rfile h Ha).
  destruct Hcmd as [Hc | Hc];
    [rewrite (call_method_GET P fs _ h Hc)
    | rewrite (call_method_HEAD P fs _ h Hc)];
    unfold do_GET, do_HEAD; by rewrite Hsend.
Qed.





(** ** The other answers of [send_head] *)














(** ** HTTP/0.9 *)





(** ** The copy loop *)

Lemma take_chars_length n s : (String.length (take_chars n s) <= n)%nat.
Proof.
  revert s. induction n as [|n IH]; intros [|c s]; simpl; try lia.
  specialize (IH s). lia.
Qed.

Lemma take_chars_min n s :
  String.length (take_chars n s) = Nat.min n (String.length s).
Proof.
  revert s. induction n as [|n IH]; intros [|c s]; simpl; try done.
  by rewrite IH.
Qed.

Lemma drop_chars_minus n s :
  String.length (drop_chars n s) = (String.length s - n)%nat.
Proof.
  revert s. induction n as [|n IH]; intros [|c s]; simpl; try done.
Qed.

Lemma append_length a b :
  String.length (a +:+ b) = (String.length a + String.length b)%nat.
Proof.
  induction a as [|x a IH]; [done |].
  rewrite append_cons. simpl. by rewrite IH.
Qed.

Lemma copy_loop_chunks fuel n fsrc h :
  (0 < n)%nat -> (String.length fsrc < fuel)%nat ->
  exists chunks,
    wfile (copy_loop fuel n fsrc h) = wfile h ++ chunks
    /\ join chunks = fsrc
    /\ Forall (fun c => (0 < String.length c <= n)%nat) chunks
    /\ (forall i c, chunks !! i = Some c -> (S i < length chunks)%nat ->
          String.length c = n).
Proof.
  intros Hn. revert fsrc h.
  induction fuel as [|fuel IH]; intros fsrc h Hlen; [lia |].
  simpl. destruct (String.eqb_spec (take_chars n fsrc) "") as [Hbuf | Hbuf].
  - exists []. rewrite app_nil_r. repeat split; try done.
    symmetry. by apply (take_chars_empty n).
  - assert (fsrc <> "") as Hne by (intros ->; by destruct n).
    destruct (IH (drop_chars n fsrc) (write h (take_chars n fsrc)))
      as (chunks & Hw & Hj & Hall & Hfull).
    { pose proof (drop_chars_shorter n fsrc Hn Hne). lia. }
    exists (take_chars n fsrc :: chunks). split; [| split; [| split]].
    + rewrite Hw. simpl. by rewrite <- app_assoc.
    + simpl. rewrite Hj. apply take_drop_chars.
    + constructor; [| done]. split; [| apply take_chars_length].
      destruct (take_chars n fsrc); [done | simpl; lia].
    + intros [|i] c Hc Hi; simpl in *.
      * injection Hc as <-. rewrite take_chars_min.
        destruct chunks as [|c' chunks']; [simpl in Hi; lia |].
        inversion Hall as [|? ? [Hpos _] _]; subst.
        apply (f_equal String.length) in Hj.
        change (join (c' :: chunks')) with (c' +:+ join chunks') in Hj.
        rewrite append_length, drop_chars_minus in Hj. lia.
      * apply (Hfull i c Hc). lia.
Qed.

(** X17: the file is sent in pieces: [copyfile] writes, after what was
    written before, pieces whose concatenation is the file; every piece
    has at least one byte and at most [COPY_BUFSIZE], and every piece but
    the last has exactly [COPY_BUFSIZE] bytes. *)
Theorem copyfile_pieces P fsrc h :
  exists chunks,
    wfile (copyfile P fsrc h) = wfile h ++ chunks
    /\ join chunks = fsrc
    /\ Forall (fun c => (0 < String.length c <= Pos.to_nat (COPY_BUFSIZE P))%nat)
         chunks
    /\ (forall i c, chunks !! i = Some c -> (S i < length chunks)%nat ->
          String.length c = Pos.to_nat (COPY_BUFSIZE P)).
Proof. apply copy_loop_chunks; lia. Qed.

Lemma copyfile_pieces_witness :
  exists chunks,
    wfile (copyfile example_platform "0123456789" setup) = [] ++ chunks
    /\ join chunks = "0123456789"
    /\ Forall (fun c => (0 < String.length c <= 4)%nat) chunks
    /\ (forall i c, chunks !! i = Some c -> (S i < length chunks)%nat ->
          String.length c = 4%nat).
Proof.
  apply (copyfile_pieces example_platform "0123456789" setup).
Defined.
(** ** Extensions *)

Lemma absent_drop c n s : absent c s = true -> absent c (drop_chars n s) = true.
Proof.
  revert s. induction n as [|n IH]; intros [|x s]; simpl; try done.
  intros [_ H]%andb_true_iff. by apply IH.
Qed.

Lemma drop_chars_add a b s :
  drop_chars (a + b) s = drop_chars b (drop_chars a s).
Proof.
  revert s. induction a as [|a IH]; intros s; [done |].
  destruct s as [|x s]; simpl; [by destruct b | apply IH].
Qed.

(** [rfind]: either the character does not occur and the result is the
    start value, or the result is the place of an occurrence after which
    the character does not occur again. *)
Lemma rfind_from_spec c p i best :
  (rfind_from c p i best = best /\ absent c p = true)
  \/ (exists k rest,
        rfind_from c p i best = i + Z.of_nat k
        /\ drop_chars k p = String c rest /\ absent c rest = true).
Proof.
  revert i best. induction p as [|x p IH]; intros i best; simpl.
  { by left. }
  destruct (IH (i + 1) (if Ascii.eqb x c then i else best))
    as [[Hr Ha] | (k & rest & Hr & Hd & Ha)].
  - destruct (Ascii.eqb_spec x c) as [-> | Hne].
    + right. exists 0%nat, p. rewrite Hr. repeat split; [lia | done].
    + left. rewrite Hr. split; [done |]. unfold absent in *. simpl.
      rewrite Ha. by apply Ascii.eqb_neq in Hne as ->.
  - right. exists (S k), rest. rewrite Hr. repeat split; [lia | done..].
Qed.

Lemma rfind_spec c p :
  (rfind c p = -1 /\ absent c p = true)
  \/ (exists k rest,
        rfind c p = Z.of_nat k
        /\ drop_chars k p = String c rest /\ absent c rest = true).
Proof.
  unfold rfind. destruct (rfind_from_spec c p 0 (-1))
    as [H | (k & rest & Hr & H)]; [by left |].
  right. exists k, rest. by rewrite Hr.
Qed.

(** X18: [splitext] cuts the path in two: root and extension put together
    are the path again; the extension is empty or starts with a dot, and
    holds no other dot and no slash, so that it lies in the last
    component of the path. *)
Theorem splitext_parts p :
  (splitext p).1 +:+ (splitext p).2 = p
  /\ ((splitext p).2 = ""
      \/ exists rest,
           (splitext p).2 = String "." rest
           /\ absent "." rest = true /\ absent "/" rest = true).
Proof.
  unfold splitext.
  destruct (_ && _) eqn:Hcond; cbn [fst snd].
  2:{ split; [apply append_empty_r | by left]. }
  split; [apply take_drop_chars |]. right.
  apply andb_true_iff in Hcond as [Hlt _]. apply Z.ltb_lt in Hlt.
  destruct (rfind_spec "." p) as [[Hdot _] | (k & rest & Hdot & Hdrop & Hrest)].
  { destruct (rfind_spec "/" p) as [[Hsep _] | (j & ? & Hsep & _)]; lia. }
  rewrite Hdot, Nat2Z.id, Hdrop. exists rest. repeat split; [done |].
  destruct (rfind_spec "/" p) as [[_ Hnone] | (j & rest' & Hsep & Hj & Hnone)].
  - apply (absent_drop _ k) in Hnone. rewrite Hdrop in Hnone.
    unfold absent in *. simpl in Hnone. exact Hnone.
  - assert (k = (S j + (k - S j))%nat) as Hk by lia.
    assert (drop_chars (S j) p = rest') as Hj'.
    { replace (S j) with (j + 1)%nat by lia.
      rewrite drop_chars_add, Hj. done. }
    rewrite Hk, drop_chars_add, Hj' in Hdrop.
    apply (absent_drop _ (k - S j)) in Hnone. rewrite Hdrop in Hnone.
    unfold absent in *. simpl in Hnone. exact Hnone.
Qed.

(** ** Printing a port and reading it back *)

Lemma uint_digits d :
  string_forallb is_digit (NilEmpty.string_of_uint d) = true.
Proof. induction d; simpl; by rewrite ?IHd. Qed.

Lemma uint_value_acc d acc :
  decimal_value_from (Z.pos acc) (NilEmpty.string_of_uint d)
  = Z.pos (Pos.of_uint_acc d acc).
Proof.
  revert acc. induction d; intros acc; simpl; [done |..].
  all: match goal with
       | |- decimal_value_from ?v _ = Z.pos (Pos.of_uint_acc _ ?q) =>
           replace v with (Z.pos q)
             by (unfold ord; simpl; lia)
       end; apply IHd.
Qed.

Lemma uint_value d :
  decimal_value_from 0 (NilEmpty.string_of_uint d) = Z.of_N (Pos.of_uint d).
Proof.
  induction d; simpl; [done | exact IHd |..].
  all: match goal with
       | |- decimal_value_from ?v _ = Z.pos (Pos.of_uint_acc _ ?q) =>
           change v with (Z.pos q)
       end; apply uint_value_acc.
Qed.

Lemma uint_nonempty d : d <> Decimal.Nil -> NilEmpty.string_of_uint d <> "".
Proof. by destruct d. Qed.

(** The text of an integer is an optional minus sign and a non-empty run
    of digits whose value is the integer. *)
Lemma str_parts n :
  exists sign ds,
    str n = sign +:+ ds /\ (sign = "" \/ sign = "-")
    /\ ds <> "" /\ string_forallb is_digit ds = true
    /\ sign_value sign * decimal_value ds = n.
Proof.
  unfold str. destruct n as [|p|p]; simpl.
  - exists "", "0". split; [done |]. split; [by left |].
    split; [done |]. by split.
  - pose proof (Unsigned.to_uint_nonnil p) as Hnil.
    exists "", (NilEmpty.string_of_uint (Pos.to_uint p)).
    split; [by destruct (Pos.to_uint p) |]. split; [by left |].
    split; [by apply uint_nonempty |]. split; [apply uint_digits |].
    unfold decimal_value. rewrite uint_value, Unsigned.of_to.
    unfold sign_value. simpl. lia.
  - pose proof (Unsigned.to_uint_nonnil p) as Hnil.
    exists "-", (NilEmpty.string_of_uint (Pos.to_uint p)).
    split; [by destruct (Pos.to_uint p) |]. split; [by right |].
    split; [by apply uint_nonempty |]. split; [apply uint_digits |].
    unfold decimal_value. rewrite uint_value, Unsigned.of_to.
    unfold sign_value. simpl. lia.
Qed.

(** X19: printing and reading agree: when [PORT] holds the decimal text of
    an integer, as the banner prints it, and the text has at most 640
    characters, [int()] gives that integer back and the server is started
    with it. *)
Theorem port_text_round_trip sys environ n :
  environ !! "PORT" = Some (str n) ->
  (String.length (str n) <= 640)%nat ->
  PORT (max_str_digits sys) environ = Ok n
  /\ main sys environ = serve sys n.
Proof.
  intros Henv Hlen.
  destruct (str_parts n) as (sign & ds & Hstr & Hsign & Hne & Hds & Hval).
  assert (PORT (max_str_digits sys) environ = Ok n) as HP.
  { rewrite (PORT_of_text _ _ _ Henv), Hstr.
    rewrite <- (append_empty_r ds).
    change (sign +:+ ds +:+ "") with ("" +:+ sign +:+ ds +:+ "").
    rewrite (int_of_str_decimal _ "" sign ds "");
      [by rewrite Hval | done | | done | done | done |].
    - destruct Hsign as [-> | ->]; tauto.
    - left. rewrite Hstr, append_length in Hlen. lia. }
  split; [exact HP |]. unfold main. by rewrite HP.
Qed.

Lemma port_text_round_trip_witness :
  PORT (max_str_digits example_system) {[ "PORT" := "8080" ]} = Ok 8080
  /\ main example_system {[ "PORT" := "8080" ]} = serve example_system 8080.
Proof.
  apply (port_text_round_trip example_system {[ "PORT" := "8080" ]} 8080).
  - reflexivity.
  - simpl. lia.
Defined.

(** ** Errors on HTTP/0.9 and the connection flag *)

(** X20: while the request version is HTTP/0.9, which is also the state in
    which the library reports a malformed request line, [send_error] puts
    no status line and no header on the wire, hence not the two added
    headers either: it writes the error page alone (for a code that has
    one, unless the request is HEAD or the page is empty) and leaves the
    header buffer as it was. *)
Theorem http09_error_page_only P h code message explain :
  request_version h = "HTTP/0.9" ->
  let page :=
    error_message P code (error_reason P code message)
      (error_explanation P code explain) in
  wfile (send_error P (CORSHandler P) h code message explain)
  = wfile h
    ++ (if (200 <=? code)
           && negb ((code =? 204) || (code =? 205) || (code =? 304))
           && negb (bool_decide (command h = Some "HEAD"))
           && negb (String.eqb page "")
        then [page] else [])
  /\ _headers_buffer (send_error P (CORSHandler P) h code message explain)
     = _headers_buffer h.
Proof. apply send_error_silent. Qed.

Lemma http09_error_page_only_witness :
  wfile (send_error example_platform example_cors
           (example_handler (request_text "GET /nope" [])) 404
           (Some "File not found") None)
  = [error_message example_platform 404 "File not found"
       "Nothing matches the given URI"].
Proof.
  destruct (http09_error_page_only example_platform
              (example_handler (request_text "GET /nope" [])) 404
              (Some "File not found") None) as (Hw & _).
  - reflexivity.
  - exact Hw.
Defined.

Lemma send_response_close P h code message :
  close_connection (send_response P h code message) = close_connection h.
Proof.
  unfold send_response.
  rewrite !send_header_other_close by reflexivity.
  unfold send_response_only. by destruct (is_http09 h).
Qed.

Lemma copy_loop_close fuel n fsrc h :
  close_connection (copy_loop fuel n fsrc h) = close_connection h.
Proof.
  revert fsrc h. induction fuel as [|fuel IH]; intros fsrc h; [done |].
  simpl. destruct (String.eqb _ _); [done |]. by rewrite IH.
Qed.

Lemma send_file_close P fs h fpath :
  close_connection h = true ->
  close_connection (send_file P fs (CORSHandler P) h fpath).1 = true.
Proof.
  intros Hc. unfold send_file.
  destruct (endswith_slash fpath); [apply send_error_close |].
  destruct (open_rb P fs fpath) as [[contents mtime]|[]]; cbn [fst];
    try apply send_error_close; try done.
  destruct (not_modified P (headers h) mtime); cbn [fst].
  all: rewrite (proj1 (cors_end_headers_frame P _)).
  all: rewrite ?send_header_other_close by reflexivity.
  all: by rewrite send_response_close.
Qed.

Lemma send_head_close P fs h :
  close_connection h = true ->
  close_connection (send_head P fs (CORSHandler P) h).1 = true.
Proof.
  intros Hc. unfold send_head.
  destruct (isdir P fs _); [| by apply send_file_close].
  destruct (urlsplit P (path h)) as [[[[[scheme netloc] upath] query] frag]|];
    [| done].
  destruct (negb _); cbn [fst].
  { rewrite (proj1 (cors_end_headers_frame P _)).
    rewrite ?send_header_other_close by reflexivity.
    by rewrite send_response_close. }
  repeat (destruct (isfile P fs _); [by apply send_file_close |]).
  unfold list_directory.
  destruct (listdir P fs _) as [names|[]]; cbn [fst];
    try apply send_error_close; try done.
  destruct (directory_listing P fs _ _ names) as [encoded|]; cbn [fst];
    [| done].
  rewrite (proj1 (cors_end_headers_frame P _)).
  rewrite ?send_header_other_close by reflexivity.
  by rewrite send_response_close.
Qed.

Lemma call_method_close P fs h :
  close_connection h = true ->
  close_connection (call_method P fs (CORSHandler P) h).1 = true.
Proof.
  intros Hc. unfold call_method, do_GET, do_HEAD.
  pose proof (send_head_close P fs h Hc) as Hh.
  destruct (String.eqb _ "do_GET").
  { destruct (send_head _ _ _ _) as [h' [[f|]|e]]; cbn [fst] in *; try done.
    unfold copyfile. by rewrite copy_loop_close. }
  destruct (String.eqb _ "do_HEAD").
  { by destruct (send_head _ _ _ _) as [h' [f|e]]. }
  apply send_error_close.
Qed.

(** X21: the handler never asks to keep the connection open: after every
    request, whatever the bytes that arrive and whatever the answer (a
    response, the error page of the request parser, nothing at all, or an
    exception), the connection is marked to be closed, so that [handle]
    does not read a second request from the connection. *)
Theorem connection_closed_after_request P fs h rfile :
  close_connection (handle_one_request P fs (CORSHandler P) h rfile).1 = true.
Proof.
  unfold handle_one_request.
  destruct (readline 65537 rfile) as [raw rest].
  destruct (65536 <? len raw); [apply send_error_close |].
  destruct (String.eqb raw ""); [done |].
  destruct (parse_request_cases P (CORSHandler P) h raw rest)
    as [(Hb & _ & Hh)
       | [(Hb & h1 & code & message & explain & Hh & _)
         | (Hb & _ & Hc & _)]].
  all: destruct (parse_request P (CORSHandler P) h raw rest) as [h' b].
  all: cbn [fst snd] in *; subst b.
  - by subst h'.
  - subst h'. apply send_error_close.
  - by apply call_method_close.
Qed.

(** ** What the request parser accepts and what it answers itself *)

Lemma parse_request_two_words P cls raw rest word target :
  str_split (rstrip raw) = [word; target] ->
  parse_request P cls setup raw rest
  = if String.eqb word "GET" then
      match _read_headers rest with
      | inl LineTooLong =>
          (send_error P cls
             (with_headers (parsed P word target "HTTP/0.9" []) []) 431
             (Some "Line too long")
             (Some "got more than 65536 bytes when reading header line"),
           false)
      | inl TooManyHeaders =>
          (send_error P cls
             (with_headers (parsed P word target "HTTP/0.9" []) []) 431
             (Some "Too many headers") (Some "got more than 100 headers"),
           false)
      | inr lines => (parsed P word target "HTTP/0.9" lines, true)
      end
    else
      (send_error P cls
         (with_close (with_version (with_command setup None) "HTTP/0.9") true)
         400 (Some ("Bad HTTP/0.9 request type (" +:+ repr P word +:+ ")"))
         None, false).
Proof.
  intros Hwords. unfold parse_request. rewrite Hwords.
  change (String.leb "HTTP/1.1" protocol_version) with false.
  cbn -[_read_headers send_error].
  destruct (String.eqb word "GET"); cbn -[_read_headers send_error];
    [| done].
  destruct (_read_headers rest) as [[]|lines]; cbn -[send_error].
  1,2: unfold parsed; by destruct (String.prefix "//" target).
  rewrite !andb_false_r. unfold parsed.
  by repeat destruct (String.eqb _ _); destruct (String.prefix "//" target).
Qed.

Lemma parse_request_three_words P cls raw rest word target version :
  str_split (rstrip raw) = [word; target; version] ->
  parse_request P cls setup raw rest
  = match version_number (int_max_str_digits P) version with
    | None =>
        (send_error P cls
           (with_close (with_version (with_command setup None) "HTTP/0.9")
              true)
           400 (Some ("Bad request version (" +:+ repr P version +:+ ")"))
           None, false)
    | Some number =>
        if tuple_ge number (2, 0) then
          (send_error P cls
             (with_close (with_version (with_command setup None) "HTTP/0.9")
                true)
             505 (Some ("Invalid HTTP version ("
                        +:+ base_version_number version +:+ ")")) None,
           false)
        else
          match _read_headers rest with
          | inl LineTooLong =>
              (send_error P cls
                 (with_headers (parsed P word target version []) []) 431
                 (Some "Line too long")
                 (Some "got more than 65536 bytes when reading header line"),
               false)
          | inl TooManyHeaders =>
              (send_error P cls
                 (with_headers (parsed P word target version []) []) 431
                 (Some "Too many headers") (Some "got more than 100 headers"),
               false)
          | inr lines => (parsed P word target version lines, true)
          end
    end.
Proof.
  intros Hwords. unfold parse_request. rewrite Hwords.
  change (String.leb "HTTP/1.1" protocol_version) with false.
  cbn -[_read_headers send_error version_number tuple_ge].
  destruct (version_number _ version) as [number|]; [| done].
  rewrite andb_false_r. destruct (tuple_ge number (2, 0)); [done |].
  cbn -[_read_headers send_error].
  destruct (_read_headers rest) as [[]|lines]; cbn -[send_error].
  1,2: unfold parsed; by destruct (String.prefix "//" target).
  rewrite !andb_false_r. unfold parsed.
  by repeat destruct (String.eqb _ _); destruct (String.prefix "//" target).
Qed.

Lemma parse_request_other_words P cls raw rest :
  (length (str_split (rstrip raw)) <= 1 \/ 4 <= length (str_split (rstrip raw)))%nat ->
  (parse_request P cls setup raw rest).2 = false.
Proof.
  intros Hlen. unfold parse_request.
  destruct (str_split (rstrip raw)) as [|w0 [|w1 [|w2 [|w3 ws]]]];
    cbn [length] in Hlen; try lia; try done.
  cbn -[send_error version_number tuple_ge List.last].
  destruct (version_number _ _) as [number|]; [| done].
  by destruct (tuple_ge number (2, 0)).
Qed.

(** X22: what the request parser accepts.  [parse_request] returns [True]
    on a new connection exactly for a request line of at most 65536 bytes
    that has two words of which the first is [GET], or three words of
    which the last reads [HTTP/<major>.<minor>] with two numbers that
    [int()] accepts and that are below (2, 0), followed by header lines
    that [_read_headers] accepts (at most a hundred lines with the closing
    one, none longer than 65536 bytes).  It then leaves the handler
    [parsed]: the first word as command, the second as path with a double
    slash at its start reduced to one, the third as request version, or
    HTTP/0.9 when there is none, the header fields of the lines, nothing
    written, and the connection marked to be closed. *)
Theorem request_accepted_iff P rfile h :
  accepted P rfile h
  <-> len (readline 65537 rfile).1 <= 65536
      /\ exists word target version lines,
           _read_headers (readline 65537 rfile).2 = inr lines
           /\ h = parsed P word target version lines
           /\ ((str_split (rstrip (readline 65537 rfile).1) = [word; target]
                /\ word = "GET" /\ version = "HTTP/0.9")
               \/ (str_split (rstrip (readline 65537 rfile).1)
                   = [word; target; version]
                   /\ exists number,
                        version_number (int_max_str_digits P) version
                        = Some number
                        /\ tuple_ge number (2, 0) = false)).
Proof.
  unfold accepted. destruct (readline 65537 rfile) as [raw rest].
  cbn [fst snd]. split.
  - intros (Hlen & Hne & Hp). split; [done |].
    destruct (str_split (rstrip raw)) as [|w0 [|w1 [|w2 [|w3 ws]]]] eqn:Hwords.
    + pose proof (parse_request_other_words P (CORSHandler P) raw rest) as Hno.
      rewrite Hwords, Hp in Hno. cbn in Hno. discriminate Hno. lia.
    + pose proof (parse_request_other_words P (CORSHandler P) raw rest) as Hno.
      rewrite Hwords, Hp in Hno. cbn in Hno. discriminate Hno. lia.
    + rewrite (parse_request_two_words P _ raw rest w0 w1 Hwords) in Hp.
      destruct (String.eqb_spec w0 "GET") as [-> | _]; [| discriminate].
      destruct (_read_headers rest) as [[]|lines]; try discriminate.
      injection Hp as <-. exists "GET", w1, "HTTP/0.9", lines.
      split; [done |]. split; [done |]. by left.
    + rewrite (parse_request_three_words P _ raw rest w0 w1 w2 Hwords) in Hp.
      destruct (version_number _ w2) as [number|] eqn:Hnumber;
        [| discriminate].
      destruct (tuple_ge number (2, 0)) eqn:Hge; [discriminate |].
      destruct (_read_headers rest) as [[]|lines]; try discriminate.
      injection Hp as <-. exists w0, w1, w2, lines.
      split; [done |]. split; [done |]. right. split; [done |].
      by exists number.
    + pose proof (parse_request_other_words P (CORSHandler P) raw rest) as Hno.
      rewrite Hwords, Hp in Hno. cbn in Hno. discriminate Hno. lia.
  - intros (Hlen & word & target & version & lines & Hlines & -> & Hline).
    split; [done |]. split.
    { intros ->. destruct Hline as [(Hwords & _) | (Hwords & _)];
        discriminate Hwords. }
    destruct Hline as [(Hwords & -> & ->)
                      | (Hwords & number & Hnumber & Hge)].
    + rewrite (parse_request_two_words P _ raw rest "GET" target Hwords).
      by rewrite Hlines.
    + rewrite (parse_request_three_words P _ raw rest word target version
                 Hwords).
      by rewrite Hnumber, Hge, Hlines.
Qed.

Lemma request_accepted_iff_witness :
  accepted example_platform
    (request_text "GET //assets/a.glb HTTP/1.1" ["Accept: */*"])
    {| command := Some "GET"; path := "/assets/a.glb";
       request_version := "HTTP/1.1"; headers := [("Accept", "*/*")];
       _headers_buffer := []; wfile := []; close_connection := true |}.
Proof.
  apply (request_accepted_iff example_platform
           (request_text "GET //assets/a.glb HTTP/1.1" ["Accept: */*"])).
  split; [by vm_compute |].
  exists "GET", "//assets/a.glb", "HTTP/1.1", ["Accept: */*" +:+ CRLF; CRLF].
  split; [reflexivity |]. split; [reflexivity |].
  right. split; [reflexivity |]. exists (1, 1). by split.
Defined.







(** X26: a GET or HEAD that the request parser accepts, whose path
    translates to a name that cannot be a file name for the system (it
    holds a NUL character, or the file system encoding cannot encode it)
    and that does not end with a slash, is not answered at all: [open()]
    raises [ValueError], [send_head] catches [OSError] only, the method
    raises and nothing is written. *)
Theorem invalid_file_name_raises P fs rfile h :
  accepted P rfile h ->
  command h = Some "GET" \/ command h = Some "HEAD" ->
  absent "000" (translate_path P (path h)) = false
  \/ os_fsencode P (translate_path P (path h)) = false ->
  endswith_slash (translate_path P (path h)) = false ->
  let answer := handle_one_request P fs (CORSHandler P) setup rfile in
  answer.2 = Some ValueError /\ wfile answer.1 = [].
Proof.
  intros Ha Hcmd Hname Hslash answer.
  assert (os_stat P fs (translate_path P (path h)) = Raise ValueError)
    as Hstat.
  { unfold os_stat. destruct Hname as [-> | ->]; [done |].
    by rewrite andb_false_r. }
  assert (send_head P fs (CORSHandler P) h = (h, Raise ValueError)) as Hsend.
  { unfold send_head, isdir, send_file, open_rb. by rewrite Hstat, Hslash. }
  subst answer. rewrite (handle_raised P fs rfile h _ _ Ha Hcmd Hsend).
  cbn [fst snd]. split; [done |].
  by destruct (accepted_state P rfile h Ha) as (-> & _).
Qed.

Lemma invalid_file_name_raises_witness :
  let answer :=
    handle_one_request example_platform example_fs example_cors setup
      (request_text ("GET /a" +:+ String "000" "b" +:+ " HTTP/1.1") []) in
  answer.2 = Some ValueError /\ wfile answer.1 = [].
Proof.
  apply (invalid_file_name_raises example_platform example_fs
           (request_text ("GET /a" +:+ String "000" "b" +:+ " HTTP/1.1") [])
           (example_handler
              (request_text ("GET /a" +:+ String "000" "b" +:+ " HTTP/1.1")
                 []))).
  - repeat split; by vm_compute.
  - left. reflexivity.
  - left. reflexivity.
  - reflexivity.
Defined.

